(** * Verification of the Rigol oscilloscope driver (src/drivers/rigol.py)

    The driver is a Python class whose methods format SCPI command
    strings and hand them to a VISA transport.  The development has
    three layers:

    - [Py]: the Python built-ins the driver relies on (f-string
      formatting of its arguments, [str.strip], [float], [print]);
    - [Visa] and the [Driver] monad: the transport library as an
      interface with arbitrary behaviour, and the driver's view of the
      world (its own attributes, the transport, the record of calls made
      to the transport, standard output);
    - [Rigol]: the methods of the class, one definition per method.

    Strings are sequences of code points below 256.  Replies are decoded
    by the transport as ASCII unless the caller changes the encoding,
    which the driver never does.  Arguments of the methods are [None],
    booleans, integers, floats or strings.  The interpreter refuses to
    turn an integer of more than 4300 digits into text; an f-string field
    holding one raises [ValueError]. *)

From Stdlib Require Import ZArith String Ascii List Bool Lia.
From Stdlib Require Import Decimal DecimalString DecimalPos DecimalZ.
From Stdlib Require Import Floats.SpecFloat.
Import ListNotations.

Open Scope string_scope.
Open Scope Z_scope.

(* ===================================================================== *)
(** * Python built-ins *)
(* ===================================================================== *)

Module Py.

(** Values the driver receives as arguments or returns.  A Python
    [float] is an IEEE 754 binary64 number. *)
Inductive pyval : Type :=
| PyNone
| PyBool (b : bool)
| PyInt (n : Z)
| PyFloat (x : spec_float)
| PyStr (s : string).

Definition prec : Z := 53.
Definition emax : Z := 1024.

(** The float [0.5], that is [2^52 * 2^-53]. *)
Definition half : spec_float := S754_finite false 4503599627370496 (-53).

(** ** Characters *)

Definition code (c : ascii) : Z := Z.of_N (N_of_ascii c).

Definition is_digit (c : ascii) : bool :=
  (48 <=? code c) && (code c <=? 57).

Definition digit_val (c : ascii) : Z := code c - 48.

(** [str.isspace] on a single character: the ASCII separators and
    control characters, NEL and the no-break space. *)
Definition isspace (c : ascii) : bool :=
  let n := code c in
  ((9 <=? n) && (n <=? 13)) || ((28 <=? n) && (n <=? 32))
  || (n =? 133) || (n =? 160).

(** The characters [float] skips around a literal: the file, group,
    record and unit separators are not among them. *)
Definition float_space (c : ascii) : bool :=
  let n := code c in
  ((9 <=? n) && (n <=? 13)) || (n =? 32) || (n =? 133) || (n =? 160).

Definition tolower (c : ascii) : ascii :=
  if (65 <=? code c) && (code c <=? 90)
  then ascii_of_N (N_of_ascii c + 32) else c.

Fixpoint lower (s : string) : string :=
  match s with
  | EmptyString => EmptyString
  | String c r => String (tolower c) (lower r)
  end.

(** ** [str.strip()] and its two halves *)

Section Strip.
Variable sp : ascii -> bool.

Fixpoint lstrip_by (s : string) : string :=
  match s with
  | EmptyString => EmptyString
  | String c r => if sp c then lstrip_by r else s
  end.

Fixpoint rstrip_by (s : string) : string :=
  match s with
  | EmptyString => EmptyString
  | String c r =>
      match rstrip_by r with
      | EmptyString => if sp c then EmptyString else String c EmptyString
      | r' => String c r'
      end
  end.

Definition strip_by (s : string) : string := rstrip_by (lstrip_by s).

Fixpoint all_by (s : string) : bool :=
  match s with
  | EmptyString => true
  | String c r => sp c && all_by r
  end.

Definition head_by (s : string) : bool :=
  match s with
  | EmptyString => false
  | String c _ => sp c
  end.

Fixpoint last_by (s : string) : bool :=
  match s with
  | EmptyString => false
  | String c EmptyString => sp c
  | String _ r => last_by r
  end.
End Strip.

Definition strip : string -> string := strip_by isspace.

(** ** [str(int)] *)

Definition str_int (n : Z) : string := NilZero.string_of_int (Z.to_int n).

(** ** [repr(float)]: the shortest decimal text that reads back as the
    same binary64 number *)

Definition ndigits (n : Z) : Z :=
  Z.of_nat (Decimal.nb_digits (N.to_uint (Z.to_N n))).

(** [10^k] and [2^k] as fractions of non-negative powers. *)
Definition pnum (b k : Z) : Z := if 0 <=? k then b ^ k else 1.
Definition pden (b k : Z) : Z := if 0 <=? k then 1 else b ^ (- k).

Fixpoint zeros (n : nat) : string :=
  match n with
  | O => EmptyString
  | S n' => String "0" (zeros n')
  end.

Fixpoint drop_zeros (fuel : nat) (d k : Z) : Z * Z :=
  match fuel with
  | O => (d, k)
  | S fuel' =>
      if (d mod 10 =? 0) && negb (d =? 0)
      then drop_zeros fuel' (d / 10) (k + 1) else (d, k)
  end.

Section Shortest.
(** The number is [m * 2^e], in canonical binary64 form. *)
Variables (m : positive) (e : Z).

(** Everything is counted in quarters of the unit in the last place:
    the number is [4m], the upper neighbour is halfway at [4m + 2], the
    lower one at [4m - 2], or at [4m - 1] below a power of two. *)
Definition unit_num : Z := pnum 2 (e - 2).
Definition unit_den : Z := pden 2 (e - 2).
Definition mid : Z := 4 * Z.pos m.
Definition upper : Z := mid + 2.
Definition lower_gap : Z :=
  if (Z.pos m =? 2 ^ (prec - 1)) && (emin prec emax <? e) then 1 else 2.
Definition lowerb : Z := mid - lower_gap.
Definition closed : bool := Z.even (Z.pos m).

Definition vnum : Z := mid * unit_num.
Definition vden : Z := unit_den.

(** The decimal exponent of the leading digit. *)
Definition k10 : Z :=
  if vden <=? vnum then ndigits (vnum / vden) - 1
  else - ndigits ((vden + vnum - 1) / vnum - 1).

(** Does [d * 10^k] read back as the number? *)
Definition reads_back (d k : Z) : bool :=
  let c := d * pnum 10 k * unit_den in
  let lo := lowerb * unit_num * pden 10 k in
  let hi := upper * unit_num * pden 10 k in
  if closed then (lo <=? c) && (c <=? hi) else (lo <? c) && (c <? hi).

(** The [n]-digit decimal that reads back and is nearest, if any. *)
Definition candidate (n : Z) : option (Z * Z) :=
  let k := k10 - n + 1 in
  let d_lo := (vnum * pden 10 k) / (vden * pnum 10 k) in
  let d_hi := d_lo + 1 in
  match reads_back d_lo k, reads_back d_hi k with
  | true, true =>
      match 2 * vnum * pden 10 k ?= (2 * d_lo + 1) * pnum 10 k * vden with
      | Lt => Some (d_lo, k)
      | Gt => Some (d_hi, k)
      | Eq => Some (if Z.even d_lo then d_lo else d_hi, k)
      end
  | true, false => Some (d_lo, k)
  | false, true => Some (d_hi, k)
  | false, false => None
  end.

Fixpoint search (fuel : nat) (n : Z) : Z * Z :=
  match fuel with
  | O => ((vnum * pden 10 (k10 - n + 1)) / (vden * pnum 10 (k10 - n + 1)),
          k10 - n + 1)
  | S fuel' =>
      match candidate n with
      | Some r => r
      | None => search fuel' (n + 1)
      end
  end.

Definition shortest : Z * Z :=
  let '(d, k) := search 17 1 in drop_zeros 17 d k.
End Shortest.

Definition exp_text (x : Z) : string :=
  let a := str_int (Z.abs x) in
  (if x <? 0 then "-" else "+")
    ++ (if Z.abs x <? 10 then "0" ++ a else a).

(** Layout of the digits [ds] with the decimal point after the first
    [decpt] of them: scientific notation outside [1e-4 <= x < 1e16]. *)
Definition layout (ds : string) (decpt : Z) : string :=
  let nd := Z.of_nat (String.length ds) in
  if (decpt <=? -4) || (16 <? decpt) then
    substring 0 1 ds
      ++ (if 1 <? nd then "." ++ substring 1 (String.length ds - 1) ds
          else "")
      ++ "e" ++ exp_text (decpt - 1)
  else if decpt <=? 0 then
    "0." ++ zeros (Z.to_nat (- decpt)) ++ ds
  else if nd <=? decpt then
    ds ++ zeros (Z.to_nat (decpt - nd)) ++ ".0"
  else
    substring 0 (Z.to_nat decpt) ds ++ "."
      ++ substring (Z.to_nat decpt) (String.length ds - Z.to_nat decpt) ds.

Definition float_repr (x : spec_float) : string :=
  match x with
  | S754_nan => "nan"
  | S754_infinity s => if s then "-inf" else "inf"
  | S754_zero s => if s then "-0.0" else "0.0"
  | S754_finite s m e =>
      let '(d, k) := shortest m e in
      let ds := str_int d in
      (if s then "-" else "")
        ++ layout ds (k + Z.of_nat (String.length ds))
  end.

(** ** [format(v, '')], what an f-string field [{v}] expands to *)

(** The text of the field, when the interpreter produces it. *)
Definition format (v : pyval) : string :=
  match v with
  | PyNone => "None"
  | PyBool b => if b then "True" else "False"
  | PyInt n => str_int n
  | PyFloat x => float_repr x
  | PyStr s => s
  end.

(** The interpreter produces the text of an integer only when it has at
    most [int_max_str_digits] decimal digits, the sign not counted;
    beyond that [str], [format] and f-string fields raise [ValueError].
    The other values always have a text. *)
Definition int_max_str_digits : Z := 4300.

Definition fits (v : pyval) : bool :=
  match v with
  | PyInt n => ndigits (Z.abs n) <=? int_max_str_digits
  | _ => true
  end.

Definition digit_limit : string :=
  "Exceeds the limit (4300 digits) for integer string conversion".

(** ** [float(str)] *)

(** Underscores may only stand between two digits; they are removed
    before the literal is read. *)
Fixpoint join_digits (prev : ascii) (s : string) : option string :=
  match s with
  | EmptyString => if Ascii.eqb prev "_" then None else Some EmptyString
  | String c r =>
      if Ascii.eqb c "_" then
        if is_digit prev then join_digits c r else None
      else if Ascii.eqb prev "_" && negb (is_digit c) then None
      else option_map (String c) (join_digits c r)
  end.

Fixpoint span_digits (s : string) : string * string :=
  match s with
  | EmptyString => (EmptyString, EmptyString)
  | String c r =>
      if is_digit c
      then let '(ds, rest) := span_digits r in (String c ds, rest)
      else (EmptyString, s)
  end.

Fixpoint digits_value (acc : Z) (s : string) : Z :=
  match s with
  | EmptyString => acc
  | String c r => digits_value (10 * acc + digit_val c) r
  end.

Definition split_sign (s : string) : bool * string :=
  match s with
  | String "-" r => (true, r)
  | String "+" r => (false, r)
  | _ => (false, s)
  end.

(** The exponent part: nothing, or [e] or [E], an optional sign and at
    least one digit, up to the end of the text. *)
Definition read_exponent (s : string) : option Z :=
  match s with
  | EmptyString => Some 0
  | String c r =>
      if Ascii.eqb (tolower c) "e" then
        let '(neg, r1) := split_sign r in
        match span_digits r1 with
        | (EmptyString, _) => None
        | (ds, EmptyString) =>
            Some (if neg then - digits_value 0 ds else digits_value 0 ds)
        | (_, String _ _) => None
        end
      else None
  end.

(** An unsigned decimal literal as mantissa and power of ten. *)
Definition read_number (s : string) : option (Z * Z) :=
  let '(ip, r1) := span_digits s in
  let '(fp, r2) :=
    match r1 with
    | String "." r => span_digits r
    | _ => (EmptyString, r1)
    end in
  match ip ++ fp with
  | EmptyString => None
  | ds =>
      match read_exponent r2 with
      | Some x => Some (digits_value 0 ds, x - Z.of_nat (String.length fp))
      | None => None
      end
  end.

(** [mant * 10^x], correctly rounded (to nearest, ties to even);
    magnitudes beyond the largest finite number become infinities. *)
Definition round_decimal (neg : bool) (mant x : Z) : spec_float :=
  match mant with
  | Z.pos p =>
      if 0 <=? x
      then binary_normalize prec emax
             (if neg then - (mant * 10 ^ x) else mant * 10 ^ x) 0 neg
      else SFdiv prec emax (S754_finite neg p 0)
             (S754_finite false (Z.to_pos (10 ^ (- x))) 0)
  | _ => S754_zero neg
  end.

Definition float (s : string) : option spec_float :=
  match join_digits "000" (strip_by float_space s) with
  | None => None
  | Some t =>
      let '(neg, body) := split_sign t in
      let word := lower body in
      if String.eqb word "inf" || String.eqb word "infinity"
      then Some (S754_infinity neg)
      else if String.eqb word "nan" then Some S754_nan
      else
        match read_number body with
        | Some (mant, x) => Some (round_decimal neg mant x)
        | None => None
        end
  end.

(** ** [print(str)]: the text and a newline on standard output *)

Definition newline : string := String "010" EmptyString.

Definition print (out s : string) : string := out ++ s ++ newline.

End Py.

(* ===================================================================== *)
(** * The VISA transport library *)
(* ===================================================================== *)

(** The library is outside the repository.  It is an interface here: any
    implementation, with any hidden state [dev], any failures [exn] and
    any replies.  Each operation returns its result, or the exception it
    raises, together with the new hidden state. *)
Module Visa.

Class Lib : Type := {
  exn : Type;
  dev : Type;
  manager : Type;
  resource : Type;
  (** [pyvisa.ResourceManager(backend)] *)
  ResourceManager : string -> dev -> (exn + manager) * dev;
  (** [rm.open_resource(name)] *)
  open_resource : manager -> string -> dev -> (exn + resource) * dev;
  (** [res.timeout = ms] *)
  set_timeout : resource -> Z -> dev -> (exn + unit) * dev;
  (** [res.read_termination = s] *)
  set_read_termination : resource -> string -> dev -> (exn + unit) * dev;
  (** [res.write_termination = s] *)
  set_write_termination : resource -> string -> dev -> (exn + unit) * dev;
  (** [res.write(msg)] *)
  write : resource -> string -> dev -> (exn + unit) * dev;
  (** [res.query(msg)]: one write followed by one read *)
  query : resource -> string -> dev -> (exn + string) * dev;
  (** [res.close()] *)
  close : resource -> dev -> (exn + unit) * dev;
  (** [bool(res)] *)
  truth : resource -> dev -> bool
}.

End Visa.

(* ===================================================================== *)
(** * The driver's world *)
(* ===================================================================== *)

Module Driver.
Section World.
Context {V : Visa.Lib}.

(** What a method can raise: an exception of the transport, or one of
    the two exceptions the interpreter itself raises in this code.  A
    [ValueError] carries the reply that [float] rejects, or the message
    of the digit limit. *)
Inductive exc : Type :=
| Transport (x : Visa.exn)
| ValueError (arg : string)
| AttributeError (attr : string).

(** Calls made to the transport, and how each ended. *)
Inductive call : Type :=
| ResourceManager (backend : string)
| OpenResource (rm : Visa.manager) (name : string)
| SetTimeout (h : Visa.resource) (ms : Z)
| SetReadTermination (h : Visa.resource) (s : string)
| SetWriteTermination (h : Visa.resource) (s : string)
| Write (h : Visa.resource) (msg : string)
| Query (h : Visa.resource) (msg : string)
| Close (h : Visa.resource).

Inductive outcome : Type :=
| Raised (x : Visa.exn)
| Returned
| Replied (s : string).

Definition entry : Type := call * outcome.

Record world : Type := {
  device : Visa.dev;
  calls : list entry;
  stdout : string
}.

(** The attributes of a [Rigol] instance; [None] is an attribute that
    has not been assigned. *)
Record obj : Type := {
  rm : option Visa.manager;
  osci : option Visa.resource
}.

Definition fresh : obj := {| rm := None; osci := None |}.

(** A method body: it may read and assign attributes of [self], talk
    to the transport, print, and end with a value or an exception.
    The world keeps every effect made before an exception. *)
Definition M (A : Type) : Type := obj -> world -> (exc + A) * obj * world.

Definition ret {A} (a : A) : M A := fun o w => (inr a, o, w).

Definition raise {A} (e : exc) : M A := fun o w => (inl e, o, w).

Definition bind {A B} (m : M A) (k : A -> M B) : M B :=
  fun o w =>
    match m o w with
    | (inr a, o', w') => k a o' w'
    | (inl e, o', w') => (inl e, o', w')
    end.

(** One call to the transport, recorded with its outcome. *)
Definition transport {A} (c : call)
    (op : Visa.dev -> (Visa.exn + A) * Visa.dev) (out : A -> outcome)
    : M A :=
  fun o w =>
    let '(r, d) := op (device w) in
    match r with
    | inl x =>
        (inl (Transport x), o,
         {| device := d; calls := calls w ++ [(c, Raised x)];
            stdout := stdout w |})
    | inr a =>
        (inr a, o,
         {| device := d; calls := calls w ++ [(c, out a)];
            stdout := stdout w |})
    end.

Definition visa_ResourceManager (backend : string) : M Visa.manager :=
  transport (ResourceManager backend) (Visa.ResourceManager backend)
    (fun _ => Returned).

Definition visa_open_resource (r : Visa.manager) (name : string)
    : M Visa.resource :=
  transport (OpenResource r name) (Visa.open_resource r name)
    (fun _ => Returned).

Definition visa_set_timeout (h : Visa.resource) (ms : Z) : M unit :=
  transport (SetTimeout h ms) (Visa.set_timeout h ms) (fun _ => Returned).

Definition visa_set_read_termination (h : Visa.resource) (s : string)
    : M unit :=
  transport (SetReadTermination h s) (Visa.set_read_termination h s)
    (fun _ => Returned).

Definition visa_set_write_termination (h : Visa.resource) (s : string)
    : M unit :=
  transport (SetWriteTermination h s) (Visa.set_write_termination h s)
    (fun _ => Returned).

Definition visa_write (h : Visa.resource) (msg : string) : M unit :=
  transport (Write h msg) (Visa.write h msg) (fun _ => Returned).

Definition visa_query (h : Visa.resource) (msg : string) : M string :=
  transport (Query h msg) (Visa.query h msg) Replied.

Definition visa_close (h : Visa.resource) : M unit :=
  transport (Close h) (Visa.close h) (fun _ => Returned).

(** [bool(h)] *)
Definition truthy (h : Visa.resource) : M bool :=
  fun o w => (inr (Visa.truth h (device w)), o, w).

(** Attribute access on [self]. *)
Definition get_rm : M Visa.manager :=
  fun o w =>
    match rm o with
    | Some r => (inr r, o, w)
    | None => (inl (AttributeError "rm"), o, w)
    end.

Definition get_osci : M Visa.resource :=
  fun o w =>
    match osci o with
    | Some h => (inr h, o, w)
    | None => (inl (AttributeError "osci"), o, w)
    end.

Definition set_rm (r : Visa.manager) : M unit :=
  fun o w => (inr tt, {| rm := Some r; osci := osci o |}, w).

Definition set_osci (h : Visa.resource) : M unit :=
  fun o w => (inr tt, {| rm := rm o; osci := Some h |}, w).

(** An f-string field [{v}]: the text of [v], or the [ValueError] of
    the digit limit. *)
Definition field (v : Py.pyval) : M string :=
  if Py.fits v then ret (Py.format v) else raise (ValueError Py.digit_limit).

Definition print (s : string) : M unit :=
  fun o w =>
    (inr tt, o,
     {| device := device w; calls := calls w;
        stdout := Py.print (stdout w) s |}).

(** ** Reading the record of calls *)

(** A query is one write followed by one read. *)
Definition is_write (e : entry) : bool :=
  match fst e with
  | Write _ _ | Query _ _ => true
  | _ => false
  end.

Definition is_read (e : entry) : bool :=
  match fst e with
  | Query _ _ => true
  | _ => false
  end.

Definition is_setting (e : entry) : bool :=
  match fst e with
  | SetTimeout _ _ | SetReadTermination _ _ | SetWriteTermination _ _ =>
      true
  | _ => false
  end.

Definition on_manager (e : entry) : bool :=
  match fst e with
  | ResourceManager _ | OpenResource _ _ => true
  | _ => false
  end.

Definition has_raised (e : entry) : bool :=
  match snd e with
  | Raised _ => true
  | _ => false
  end.

Definition count (p : entry -> bool) (l : list entry) : nat :=
  List.length (filter p l).

Definition writes (l : list entry) : nat := count is_write l.
Definition reads (l : list entry) : nat := count is_read l.

Definition is_close (e : entry) : bool :=
  match fst e with
  | Close _ => true
  | _ => false
  end.

(** The resource a call is made on, if it is made on one. *)
Definition addressed (c : call) : option Visa.resource :=
  match c with
  | ResourceManager _ | OpenResource _ _ => None
  | SetTimeout h _ | SetReadTermination h _ | SetWriteTermination h _
  | Write h _ | Query h _ | Close h => Some h
  end.

(** A write that returned. *)
Definition sent (h : Visa.resource) (msg : string) : entry :=
  (Write h msg, Returned).

(** The hidden state after the transport has accepted these writes one
    after the other; [None] when one of them raises. *)
Fixpoint accepted (h : Visa.resource) (msgs : list string) (d : Visa.dev)
    : option Visa.dev :=
  match msgs with
  | [] => Some d
  | m :: rest =>
      match Visa.write h m d with
      | (inr _, d') => accepted h rest d'
      | (inl _, _) => None
      end
  end.

(** A single exchange: one write and, for a query, one read. *)
Definition single_exchange (l : list entry) : Prop :=
  writes l = 1%nat /\ (reads l <= 1)%nat.

End World.

Declare Scope driver_scope.
Notation "x <- m ;; k" := (bind m (fun x => k))
  (at level 61, m at next level, right associativity) : driver_scope.
Notation "m ;; k" := (bind m (fun _ => k))
  (at level 61, right associativity) : driver_scope.

End Driver.

(* ===================================================================== *)
(** * class Rigol *)
(* ===================================================================== *)

Module Rigol.
Import Driver.
Local Open Scope driver_scope.

Section Methods.
Context {V : Visa.Lib}.

Definition __init__ (ip_address : Py.pyval) : M unit :=
  r <- visa_ResourceManager "@py" ;;
  set_rm r ;;
  r <- get_rm ;;
  ip <- field ip_address ;;
  h <- visa_open_resource r ("TCPIP::" ++ ip ++ "::INSTR") ;;
  set_osci h ;;
  h <- get_osci ;;
  visa_set_timeout h 2000 ;;
  h <- get_osci ;;
  visa_set_read_termination h Py.newline ;;
  h <- get_osci ;;
  visa_set_write_termination h Py.newline ;;
  h <- get_osci ;;
  s <- visa_query h "*IDN?" ;;
  print s.

Definition configure_channel (channel scale coupling : Py.pyval)
    : M unit :=
  h <- get_osci ;;
  c <- field channel ;;
  visa_write h (":CHANnel" ++ c ++ ":DISPlay ON") ;;
  h <- get_osci ;;
  c <- field channel ;;
  s <- field scale ;;
  visa_write h (":CHANnel" ++ c ++ ":SCALe " ++ s) ;;
  h <- get_osci ;;
  c <- field channel ;;
  k <- field coupling ;;
  visa_write h (":CHANnel" ++ c ++ ":COUPling " ++ k).

Definition setup_trigger (source level mode : Py.pyval) : M unit :=
  h <- get_osci ;;
  s <- field source ;;
  visa_write h (":TRIG:EDGE:SOURce CHAN" ++ s) ;;
  h <- get_osci ;;
  l <- field level ;;
  visa_write h (":TRIG:EDGE:LEV " ++ l) ;;
  h <- get_osci ;;
  k <- field mode ;;
  visa_write h (":TRIG:SWE " ++ k).

Definition get_time_step : M spec_float :=
  h <- get_osci ;;
  s <- visa_query h ":WAV:XINC?" ;;
  match Py.float s with
  | Some x => ret x
  | None => raise (ValueError s)
  end.

Definition set_memory_depth (memory_depth : Py.pyval) : M unit :=
  h <- get_osci ;;
  d <- field memory_depth ;;
  visa_write h (":ACQuire:MDEPth " ++ d).

Definition get_memory_depth : M string :=
  h <- get_osci ;;
  visa_query h ":ACQuire:MDEPth?".

Definition acquire_waveform (channel mode points : Py.pyval) : M string :=
  h <- get_osci ;;
  c <- field channel ;;
  visa_write h (":WAV:SOUR CHAN" ++ c) ;;
  h <- get_osci ;;
  k <- field mode ;;
  visa_write h (":WAV:MODE " ++ k) ;;
  h <- get_osci ;;
  p <- field points ;;
  visa_write h (":WAV:POIN " ++ p) ;;
  h <- get_osci ;;
  visa_write h ":WAV:FORM ASC" ;;
  h <- get_osci ;;
  visa_query h ":WAV:DATA?".

Definition get_trigger_status : M string :=
  h <- get_osci ;;
  s <- visa_query h ":TRIG:STAT?" ;;
  ret (Py.strip s).

Definition close : M unit :=
  h <- get_osci ;;
  b <- truthy h ;;
  if b then h <- get_osci ;; visa_close h else ret tt.

Definition set_time_scale (time_scale : Py.pyval) : M unit :=
  h <- get_osci ;;
  t <- field time_scale ;;
  visa_write h (":TIMebase:MAIN:SCALe " ++ t).

Definition set_time_offset (time_offset : Py.pyval) : M unit :=
  h <- get_osci ;;
  t <- field time_offset ;;
  visa_write h (":TIMebase:MAIN:OFFSet " ++ t).

(** [Rigol(ip_address)]: a new instance, initialised. *)
Definition new (ip_address : Py.pyval) (w : world) : (exc + obj) * world :=
  match __init__ ip_address fresh w with
  | (inr _, o, w') => (inr o, w')
  | (inl e, _, w') => (inl e, w')
  end.

(** The methods a caller can invoke on an instance, with their
    arguments, and the value each call evaluates to. *)
Inductive method : Type :=
| Configure_channel (channel scale coupling : Py.pyval)
| Setup_trigger (source level mode : Py.pyval)
| Get_time_step
| Set_memory_depth (memory_depth : Py.pyval)
| Get_memory_depth
| Acquire_waveform (channel mode points : Py.pyval)
| Get_trigger_status
| Close
| Set_time_scale (time_scale : Py.pyval)
| Set_time_offset (time_offset : Py.pyval).

Definition returning {A} (f : A -> Py.pyval) (m : M A) : M Py.pyval :=
  a <- m ;; ret (f a).

Definition invoke (m : method) : M Py.pyval :=
  match m with
  | Configure_channel c s k =>
      returning (fun _ => Py.PyNone) (configure_channel c s k)
  | Setup_trigger s l k =>
      returning (fun _ => Py.PyNone) (setup_trigger s l k)
  | Get_time_step => returning Py.PyFloat get_time_step
  | Set_memory_depth d =>
      returning (fun _ => Py.PyNone) (set_memory_depth d)
  | Get_memory_depth => returning Py.PyStr get_memory_depth
  | Acquire_waveform c k p =>
      returning Py.PyStr (acquire_waveform c k p)
  | Get_trigger_status => returning Py.PyStr get_trigger_status
  | Close => returning (fun _ => Py.PyNone) close
  | Set_time_scale t =>
      returning (fun _ => Py.PyNone) (set_time_scale t)
  | Set_time_offset t =>
      returning (fun _ => Py.PyNone) (set_time_offset t)
  end.

(** An instance as the constructor leaves it. *)
Definition instance (r : Visa.manager) (h : Visa.resource) : obj :=
  {| rm := Some r; osci := Some h |}.

(** Not a method of the class: the table of the writes and reads each
    method requests when nothing fails, read off the bodies above. *)
Definition exchanges (m : method) : nat * nat :=
  match m with
  | Configure_channel _ _ _ | Setup_trigger _ _ _ => (3, 0)%nat
  | Acquire_waveform _ _ _ => (5, 1)%nat
  | Get_time_step | Get_memory_depth | Get_trigger_status => (1, 1)%nat
  | Set_memory_depth _ | Set_time_scale _ | Set_time_offset _ => (1, 0)%nat
  | Close => (0, 0)%nat
  end.


(** Not a method of the class: the calls each method makes on the
    instrument handle [h] when nothing fails and the handle is true, in
    the order of the statements of its body. *)
Definition commands (m : method) (h : Visa.resource) : list call :=
  match m with
  | Configure_channel c s k =>
      [Write h (":CHANnel" ++ Py.format c ++ ":DISPlay ON");
       Write h (":CHANnel" ++ Py.format c ++ ":SCALe " ++ Py.format s);
       Write h (":CHANnel" ++ Py.format c ++ ":COUPling " ++ Py.format k)]
  | Setup_trigger s l k =>
      [Write h (":TRIG:EDGE:SOURce CHAN" ++ Py.format s);
       Write h (":TRIG:EDGE:LEV " ++ Py.format l);
       Write h (":TRIG:SWE " ++ Py.format k)]
  | Get_time_step => [Query h ":WAV:XINC?"]
  | Set_memory_depth d => [Write h (":ACQuire:MDEPth " ++ Py.format d)]
  | Get_memory_depth => [Query h ":ACQuire:MDEPth?"]
  | Acquire_waveform c k p =>
      [Write h (":WAV:SOUR CHAN" ++ Py.format c);
       Write h (":WAV:MODE " ++ Py.format k);
       Write h (":WAV:POIN " ++ Py.format p);
       Write h ":WAV:FORM ASC";
       Query h ":WAV:DATA?"]
  | Get_trigger_status => [Query h ":TRIG:STAT?"]
  | Close => [Driver.Close h]
  | Set_time_scale t => [Write h (":TIMebase:MAIN:SCALe " ++ Py.format t)]
  | Set_time_offset t => [Write h (":TIMebase:MAIN:OFFSet " ++ Py.format t)]
  end.
End Methods.
End Rigol.

(* ===================================================================== *)
(** * A scripted transport, for concrete runs *)
(* ===================================================================== *)

(** The transport plays back a script: each call takes the next item,
    which makes it fail with a status code or succeed with a reply
    (ignored by calls that return nothing).  When the script is over
    every call succeeds with an empty reply.  Resources are numbered; the
    manager opens resource 1, and resource 0 stands for a handle that is
    false in a condition. *)
Module Scripted.

Inductive item : Type :=
| Fails (status : Z)
| Gives (reply : string).

Definition play {A} (ok : string -> A) (d : list item)
    : (Z + A) * list item :=
  match d with
  | [] => (inr (ok ""), [])
  | Fails c :: d' => (inl c, d')
  | Gives s :: d' => (inr (ok s), d')
  end.

#[export] Instance lib : Visa.Lib := {|
  Visa.exn := Z;
  Visa.dev := list item;
  Visa.manager := unit;
  Visa.resource := nat;
  Visa.ResourceManager := fun _ => play (fun _ => tt);
  Visa.open_resource := fun _ _ => play (fun _ => 1%nat);
  Visa.set_timeout := fun _ _ => play (fun _ => tt);
  Visa.set_read_termination := fun _ _ => play (fun _ => tt);
  Visa.set_write_termination := fun _ _ => play (fun _ => tt);
  Visa.write := fun _ _ => play (fun _ => tt);
  Visa.query := fun _ _ => play (fun s => s);
  Visa.close := fun _ => play (fun _ => tt);
  Visa.truth := fun h _ => negb (Nat.eqb h 0)
|}.

(** What remains of a script is the hidden state of this transport. *)
Definition remaining (script : list item) : Visa.dev := script.

Definition start (script : list item) : Driver.world :=
  {| Driver.device := script; Driver.calls := []; Driver.stdout := "" |}.

Definition scope : Driver.obj := Rigol.instance tt 1%nat.

(** Calls on resource 1. *)
Definition wrote (msg : string) : Driver.entry :=
  @Driver.sent lib 1%nat msg.

Definition asked (msg reply : string) : Driver.entry :=
  (@Driver.Query lib 1%nat msg, @Driver.Replied lib reply).

(** The status code of a timeout. *)
Definition VI_ERROR_TMO : Z := -1073807339.

End Scripted.

(* ===================================================================== *)
(** * Properties of the built-ins *)
(* ===================================================================== *)

Module PyFacts.
Import Py.

Section StripFacts.
Variable sp : ascii -> bool.

Lemma lstrip_by_split (s : string) :
  exists a, s = a ++ lstrip_by sp s /\ all_by sp a = true.
Proof.
  induction s as [|c r IH]; simpl.
  - exists EmptyString. split; reflexivity.
  - destruct (sp c) eqn:Hc.
    + destruct IH as [a [Ha Hall]].
      exists (String c a). simpl. rewrite Hc, Hall. split; [|reflexivity].
      now rewrite <- Ha.
    + exists EmptyString. split; reflexivity.
Qed.

Lemma lstrip_by_head (s : string) : head_by sp (lstrip_by sp s) = false.
Proof.
  induction s as [|c r IH]; simpl; [reflexivity|].
  destruct (sp c) eqn:Hc; [exact IH|]. simpl. exact Hc.
Qed.

Lemma rstrip_by_split (s : string) :
  exists b, s = rstrip_by sp s ++ b /\ all_by sp b = true.
Proof.
  induction s as [|c r IH]; simpl.
  - exists EmptyString. split; reflexivity.
  - destruct IH as [b [Hb Hall]].
    destruct (rstrip_by sp r) as [|c' r'] eqn:Hr.
    + simpl in Hb. subst r. destruct (sp c) eqn:Hc.
      * exists (String c b). simpl. rewrite Hc, Hall. split; reflexivity.
      * exists b. split; [reflexivity|exact Hall].
    + exists b. split; [|exact Hall]. simpl. f_equal. exact Hb.
Qed.

Lemma rstrip_by_last (s : string) : last_by sp (rstrip_by sp s) = false.
Proof.
  induction s as [|c r IH]; simpl; [reflexivity|].
  destruct (rstrip_by sp r) as [|c' r'] eqn:Hr.
  - destruct (sp c) eqn:Hc; simpl; [reflexivity|exact Hc].
  - exact IH.
Qed.

Lemma rstrip_by_head (s : string) :
  head_by sp s = false -> head_by sp (rstrip_by sp s) = false.
Proof.
  destruct s as [|c r]; simpl; [reflexivity|].
  intros Hc. destruct (rstrip_by sp r); [rewrite Hc|]; simpl; auto.
Qed.

Lemma append_assoc (a b c : string) : (a ++ b) ++ c = a ++ (b ++ c).
Proof. induction a as [|x a IH]; simpl; [reflexivity|now rewrite IH]. Qed.

(** [strip_by] removes a run of skipped characters at each end, and
    nothing else. *)
Lemma strip_by_spec (s : string) :
  head_by sp (strip_by sp s) = false
  /\ last_by sp (strip_by sp s) = false
  /\ exists a b, s = a ++ strip_by sp s ++ b
       /\ all_by sp a = true /\ all_by sp b = true.
Proof.
  unfold strip_by. split; [|split].
  - apply rstrip_by_head, lstrip_by_head.
  - apply rstrip_by_last.
  - destruct (lstrip_by_split s) as [a [Ha Hall]].
    destruct (rstrip_by_split (lstrip_by sp s)) as [b [Hb Hbll]].
    exists a, b. split; [|split; assumption].
    rewrite <- Hb. exact Ha.
Qed.

Lemma lstrip_by_all (s : string) :
  all_by sp s = true -> lstrip_by sp s = EmptyString.
Proof.
  induction s as [|c r IH]; simpl; [reflexivity|].
  destruct (sp c); simpl; [exact IH|discriminate].
Qed.

Lemma rstrip_by_all (s : string) :
  all_by sp s = true -> rstrip_by sp s = EmptyString.
Proof.
  induction s as [|c r IH]; simpl; [reflexivity|].
  destruct (sp c); simpl; [|discriminate].
  intros H. now rewrite (IH H).
Qed.

Lemma lstrip_by_app_all (a t : string) :
  all_by sp a = true -> lstrip_by sp (a ++ t) = lstrip_by sp t.
Proof.
  induction a as [|c r IH]; simpl; [reflexivity|].
  destruct (sp c); simpl; [exact IH|discriminate].
Qed.

Lemma rstrip_by_app_all (t b : string) :
  all_by sp b = true -> rstrip_by sp (t ++ b) = rstrip_by sp t.
Proof.
  intros Hb. induction t as [|c r IH]; simpl.
  - now apply rstrip_by_all.
  - now rewrite IH.
Qed.

Lemma strip_by_app_all (s b : string) :
  all_by sp b = true -> strip_by sp (s ++ b) = strip_by sp s.
Proof.
  intros Hb. unfold strip_by. induction s as [|c r IH]; simpl.
  - now rewrite (lstrip_by_all _ Hb).
  - destruct (sp c); [exact IH|].
    exact (rstrip_by_app_all (String c r) b Hb).
Qed.

(** White space around a text does not change what is left of it. *)
Lemma strip_by_padding (a s b : string) :
  all_by sp a = true -> all_by sp b = true ->
  strip_by sp (a ++ s ++ b) = strip_by sp s.
Proof.
  intros Ha Hb. unfold strip_by. rewrite (lstrip_by_app_all _ _ Ha).
  exact (strip_by_app_all s b Hb).
Qed.

Lemma strip_by_blank (s : string) :
  all_by sp s = true -> strip_by sp s = EmptyString.
Proof. intros H. unfold strip_by. now rewrite (lstrip_by_all _ H). Qed.

Lemma rstrip_by_clean (s : string) :
  last_by sp s = false -> rstrip_by sp s = s.
Proof.
  induction s as [|c r IH]; [reflexivity|].
  destruct r as [|c' r'].
  - simpl. now intros ->.
  - intros H. change (last_by sp (String c' r') = false) in H.
    change (rstrip_by sp (String c (String c' r')))
      with (match rstrip_by sp (String c' r') with
            | EmptyString =>
                if sp c then EmptyString else String c EmptyString
            | r0 => String c r0
            end).
    now rewrite (IH H).
Qed.

(** A text with no skipped character at either end is left as it is. *)
Lemma strip_by_clean (s : string) :
  head_by sp s = false -> last_by sp s = false -> strip_by sp s = s.
Proof.
  intros Hh Hl. unfold strip_by.
  assert (lstrip_by sp s = s) as ->.
  { destruct s as [|c r]; [reflexivity|]. simpl in *. now rewrite Hh. }
  now apply rstrip_by_clean.
Qed.

(** What is left after stripping is made of characters of the text. *)
Lemma lstrip_by_keeps (q : ascii -> bool) (s : string) :
  all_by q s = true -> all_by q (lstrip_by sp s) = true.
Proof.
  induction s as [|c r IH]; simpl; [reflexivity|].
  intros H. apply andb_prop in H. destruct H as [Hc Hr].
  destruct (sp c); [exact (IH Hr)|]. simpl. now rewrite Hc, Hr.
Qed.

Lemma rstrip_by_keeps (q : ascii -> bool) (s : string) :
  all_by q s = true -> all_by q (rstrip_by sp s) = true.
Proof.
  induction s as [|c r IH]; simpl; [reflexivity|].
  intros H. apply andb_prop in H. destruct H as [Hc Hr].
  specialize (IH Hr). destruct (rstrip_by sp r) as [|c' r'].
  - destruct (sp c); simpl; [reflexivity|now rewrite Hc].
  - change (q c && all_by q (String c' r') = true). now rewrite Hc, IH.
Qed.

Lemma strip_by_keeps (q : ascii -> bool) (s : string) :
  all_by q s = true -> all_by q (strip_by sp s) = true.
Proof. intros H. apply rstrip_by_keeps, lstrip_by_keeps, H. Qed.

Lemma strip_by_idem (s : string) :
  strip_by sp (strip_by sp s) = strip_by sp s.
Proof.
  destruct (strip_by_spec s) as [Hh [Hl _]]. now apply strip_by_clean.
Qed.
End StripFacts.

(** Unit tests of the built-ins on the texts this driver meets. *)
Example format_channel : format (PyInt 1) = "1".
Proof. reflexivity. Qed.

Example format_half : format (PyFloat half) = "0.5".
Proof. vm_compute. reflexivity. Qed.

Example format_coupling : format (PyStr "DC") = "DC".
Proof. reflexivity. Qed.

Example float_xinc :
  float "1.000000e-06" = Some (S754_finite false 4722366482869645 (-72)).
Proof. vm_compute. reflexivity. Qed.

Example format_micro :
  format (PyFloat (S754_finite false 4722366482869645 (-72))) = "1e-06".
Proof. vm_compute. reflexivity. Qed.

Example format_timeout :
  format (PyFloat (S754_finite false 8796093022208000 (-42))) = "2000.0".
Proof. vm_compute. reflexivity. Qed.

(** [1e23] lies halfway between two floats and reads as the lower one,
    whose shortest text is again [1e+23]. *)
Example format_tie :
  format (PyFloat (S754_finite false 5960464477539062 24)) = "1e+23".
Proof. vm_compute. reflexivity. Qed.

Example float_tie : float "1e23" = Some (S754_finite false 5960464477539062 24).
Proof. vm_compute. reflexivity. Qed.

Example float_of_repr_half : float (float_repr half) = Some half.
Proof. vm_compute. reflexivity. Qed.

Example float_padded :
  float (" 5.000000e-01" ++ String "013" EmptyString) = Some half.
Proof. vm_compute. reflexivity. Qed.

Example float_underscores : float "1_0" <> None /\ float "1__0" = None.
Proof. split; vm_compute; [discriminate|reflexivity]. Qed.

Example float_words :
  float "-Infinity" = Some (S754_infinity true) /\ float "NaN" = Some S754_nan.
Proof. split; vm_compute; reflexivity. Qed.

Example float_overflow : float "1e400" = Some (S754_infinity false).
Proof. vm_compute. reflexivity. Qed.

Example float_junk : float "abc" = None.
Proof. vm_compute. reflexivity. Qed.

Example float_empty : float "" = None.
Proof. vm_compute. reflexivity. Qed.

Example strip_status :
  strip (" STOP" ++ String "013" EmptyString) = "STOP".
Proof. vm_compute. reflexivity. Qed.


(** ** Integers and their text *)

Lemma to_int_proper (n : Z) :
  Z.to_int n <> Decimal.Pos Nil /\ Z.to_int n <> Decimal.Neg Nil.
Proof.
  destruct n as [|p|p]; simpl; split; try discriminate;
    intros [= H]; exact (DecimalPos.Unsigned.to_uint_nonnil p H).
Qed.

(** The integer can be read back from its text. *)
Lemma str_int_read_back (n : Z) :
  option_map Z.of_int (NilZero.int_of_string (str_int n)) = Some n.
Proof.
  unfold str_int. destruct (to_int_proper n) as [Hp Hn].
  rewrite (NilZero.isi _ Hp Hn). simpl. now rewrite DecimalZ.of_to.
Qed.

Lemma str_int_inj (a b : Z) : str_int a = str_int b -> a = b.
Proof.
  intros H. pose proof (str_int_read_back a) as Ha.
  rewrite H, str_int_read_back in Ha. now injection Ha.
Qed.

(** ** [float] and white space *)

Lemma join_digits_head (c : ascii) (r : string) :
  Ascii.eqb c "_" = false ->
  join_digits "000" (String c r) = option_map (String c) (join_digits c r).
Proof. simpl. now intros ->. Qed.

(** A text that begins with white space once the characters [float]
    skips are removed (a separator such as U+001C) is not a literal. *)
Lemma float_space_inside (s : string) (c : ascii) (r : string) :
  isspace c = true ->
  strip_by float_space s = String c r -> float s = None.
Proof.
  intros Hc Hs. unfold float. rewrite Hs.
  destruct c as [[] [] [] [] [] [] [] []]; try discriminate Hc;
    (rewrite join_digits_head by reflexivity;
     destruct (join_digits _ r) as [r'|]; [|reflexivity];
     vm_compute; reflexivity).
Qed.

(** A reply that is empty or made of white space only is not a float
    literal. *)
Lemma float_blank (s : string) : all_by isspace s = true -> float s = None.
Proof.
  intros H. pose proof (strip_by_keeps float_space isspace s H) as Ht.
  destruct (strip_by float_space s) as [|c r] eqn:E.
  - unfold float. rewrite E. reflexivity.
  - simpl in Ht. apply andb_prop in Ht.
    exact (float_space_inside s c r (proj1 Ht) E).
Qed.

(** [float] reads a literal the same with white space around it. *)
Lemma float_padding (a s b : string) :
  all_by float_space a = true -> all_by float_space b = true ->
  float (a ++ s ++ b) = float s.
Proof.
  intros Ha Hb. unfold float. now rewrite (strip_by_padding _ _ _ _ Ha Hb).
Qed.

End PyFacts.

(* ===================================================================== *)
(** * Running the methods *)
(* ===================================================================== *)

Module Runs.
Import Driver.

(** Unfold a method down to the calls it makes to the transport. *)
Ltac expose :=
  cbv beta iota zeta delta
    [Rigol.invoke Rigol.returning Rigol.new Rigol.__init__
     Rigol.configure_channel Rigol.setup_trigger Rigol.get_time_step
     Rigol.set_memory_depth Rigol.get_memory_depth Rigol.acquire_waveform
     Rigol.get_trigger_status Rigol.close Rigol.set_time_scale
     Rigol.set_time_offset Rigol.instance
     bind ret raise transport truthy print fresh field
     visa_ResourceManager visa_open_resource visa_set_timeout
     visa_set_read_termination visa_set_write_termination
     visa_write visa_query visa_close
     get_rm get_osci set_rm set_osci
     device calls stdout rm osci] in *.

(** Split on the outcome of the next call, the one made in a state that
    is already known. *)
Ltac next_call :=
  match goal with
  | |- context [Visa.ResourceManager ?b ?d] =>
      is_var d; destruct (Visa.ResourceManager b d) as [[?x|?r] ?d]
  | |- context [Visa.open_resource ?r ?n ?d] =>
      is_var d; destruct (Visa.open_resource r n d) as [[?x|?h] ?d]
  | |- context [Visa.set_timeout ?h ?t ?d] =>
      is_var d; destruct (Visa.set_timeout h t d) as [[?x|[]] ?d]
  | |- context [Visa.set_read_termination ?h ?t ?d] =>
      is_var d; destruct (Visa.set_read_termination h t d) as [[?x|[]] ?d]
  | |- context [Visa.set_write_termination ?h ?t ?d] =>
      is_var d; destruct (Visa.set_write_termination h t d) as [[?x|[]] ?d]
  | |- context [Visa.write ?h ?m ?d] =>
      is_var d; destruct (Visa.write h m d) as [[?x|[]] ?d]
  | |- context [Visa.query ?h ?m ?d] =>
      is_var d; destruct (Visa.query h m d) as [[?x|?s] ?d]
  | |- context [Visa.close ?h ?d] =>
      is_var d; destruct (Visa.close h d) as [[?x|[]] ?d]
  | |- context [Visa.truth ?h ?d] =>
      is_var d; destruct (Visa.truth h d)
  | |- context [Py.float ?s] =>
      is_var s; destruct (Py.float s) eqn:?
  | |- context [Py.fits ?v] =>
      is_var v; destruct (Py.fits v) eqn:?
  end; expose.

Ltac run_all := expose; repeat next_call.

(** The record of calls grows at its end. *)
Ltac tidy := rewrite <- ?app_assoc; cbn [Datatypes.app].

Section Facts.
Context {V : Visa.Lib}.

Lemma configure_channel_ok (c s k : Py.pyval) r h w u o' w' :
  Rigol.configure_channel c s k (Rigol.instance r h) w = (inr u, o', w') ->
  calls w' = (calls w ++
    [sent h (":CHANnel" ++ Py.format c ++ ":DISPlay ON");
     sent h (":CHANnel" ++ Py.format c ++ ":SCALe " ++ Py.format s);
     sent h (":CHANnel" ++ Py.format c ++ ":COUPling " ++ Py.format k)])%list.
Proof.
  destruct w as [d l out]. revert u o' w'. run_all;
    intros u o' w' H; inversion H; subst; clear H; expose; tidy;
    reflexivity.
Qed.

Lemma setup_trigger_ok (src lev k : Py.pyval) r h w u o' w' :
  Rigol.setup_trigger src lev k (Rigol.instance r h) w = (inr u, o', w') ->
  calls w' = (calls w ++
    [sent h (":TRIG:EDGE:SOURce CHAN" ++ Py.format src);
     sent h (":TRIG:EDGE:LEV " ++ Py.format lev);
     sent h (":TRIG:SWE " ++ Py.format k)])%list.
Proof.
  destruct w as [d l out]. revert u o' w'. run_all;
    intros u o' w' H; inversion H; subst; clear H; expose; tidy;
    reflexivity.
Qed.

Lemma acquire_waveform_ok (c k p : Py.pyval) r h w v o' w' :
  Rigol.acquire_waveform c k p (Rigol.instance r h) w = (inr v, o', w') ->
  calls w' = (calls w ++
    [sent h (":WAV:SOUR CHAN" ++ Py.format c);
     sent h (":WAV:MODE " ++ Py.format k);
     sent h (":WAV:POIN " ++ Py.format p);
     sent h ":WAV:FORM ASC";
     (Query h ":WAV:DATA?", Replied v)])%list.
Proof.
  destruct w as [d l out]. revert v o' w'. run_all;
    intros v o' w' H; inversion H; subst; clear H; expose; tidy;
    reflexivity.
Qed.

(** A construction that succeeds has made these six calls, in this
    order, and printed the identification. *)
Lemma new_ok (ip : Py.pyval) w o w' :
  Rigol.new ip w = (inr o, w') ->
  exists r h s,
    o = Rigol.instance r h
    /\ calls w' = (calls w ++
         [(ResourceManager "@py", Returned);
          (OpenResource r ("TCPIP::" ++ Py.format ip ++ "::INSTR"),
           Returned);
          (SetTimeout h 2000, Returned);
          (SetReadTermination h Py.newline, Returned);
          (SetWriteTermination h Py.newline, Returned);
          (Query h "*IDN?", Replied s)])%list
    /\ stdout w' = Py.print (stdout w) s.
Proof.
  destruct w as [d l out]. revert o w'. run_all;
    intros o w' H; inversion H; subst; clear H; expose.
  eexists _, _, _. split; [reflexivity|]. split; [|reflexivity].
  tidy. reflexivity.
Qed.

(** Ways to exhibit the calls a run has added to the record. *)
Lemma grown_nil (l : list entry) : l = (l ++ [])%list.
Proof. symmetry. apply app_nil_r. Qed.
End Facts.

(** Follow a hypothesis that the transport accepts a list of writes. *)
Ltac accept H :=
  cbn [accepted] in H;
  repeat match type of H with
         | context [Visa.write ?h ?m ?d] =>
             destruct (Visa.write h m d) as [[?x|[]] ?d]; expose;
             try discriminate H
         end;
  inversion H; subst; clear H.

(** Close a goal [calls = old ++ ?l] whatever the number of new calls. *)
Ltac grown := first [apply grown_nil | tidy; reflexivity].


(** Go through the members of an explicit list. *)
Ltac members H :=
  cbn [In Datatypes.app] in H;
  repeat match type of H with
         | _ \/ _ => destruct H as [H|H]
         end;
  try contradiction.

(** Count in an explicit list of calls. *)
Ltac tally :=
  cbv beta iota delta
    [writes reads count filter is_write is_read is_setting on_manager
     has_raised fst snd List.length sent Rigol.exchanges map Datatypes.app].

(** A run that raised has not returned. *)
Ltac not_returned :=
  match goal with
  | H : exists _, inl _ = inr _ |- _ => destruct H as [? H]; discriminate H
  end.
End Runs.

(* ===================================================================== *)
(** * The claims of the specification *)
(* ===================================================================== *)

Import Driver Runs.

(** C1, as stated, fails: [configure_channel(1, 0.5, "DC")] on a
    transport that accepts everything is not a single exchange; it makes
    three writes. *)
Lemma configure_channel_not_single :
  ~ single_exchange
      (calls (snd (Rigol.invoke
                     (Rigol.Configure_channel
                        (Py.PyInt 1) (Py.PyFloat Py.half) (Py.PyStr "DC"))
                     Scripted.scope (Scripted.start [])))).
Proof.
  unfold single_exchange. vm_compute. intros [H _]. discriminate H.
Qed.

(** C1, amended: the number of writes and reads of a method is given by
    [Rigol.exchanges]: three writes for [configure_channel] and
    [setup_trigger], four writes and a query for [acquire_waveform], one
    query for the three getters, one write for the three setters, none
    for [close].  A run never exceeds these numbers and reaches them
    when the method returns; the constructor makes one query. *)
Theorem method_exchanges `{V : Visa.Lib} :
  (forall (m : Rigol.method) r h w,
     let '(res, _, w') := Rigol.invoke m (Rigol.instance r h) w in
     exists l,
       calls w' = (calls w ++ l)%list
       /\ (writes l <= fst (Rigol.exchanges m))%nat
       /\ (reads l <= snd (Rigol.exchanges m))%nat
       /\ ((exists v, res = inr v) ->
           writes l = fst (Rigol.exchanges m)
           /\ reads l = snd (Rigol.exchanges m)))
  /\ (forall ip w,
        let '(res, w') := Rigol.new ip w in
        exists l,
          calls w' = (calls w ++ l)%list
          /\ (writes l <= 1)%nat /\ (reads l <= 1)%nat
          /\ ((exists o, res = inr o) ->
              writes l = 1%nat /\ reads l = 1%nat)).
Proof.
  split.
  - intros m r h [d l out].
    destruct m; run_all;
      (eexists; split; [grown|]; tally;
       repeat split; try not_returned; lia).
  - intros ip [d l out]. run_all;
      (eexists; split; [grown|]; tally;
       repeat split; try not_returned; lia).
Qed.

Lemma method_exchanges_witness :
  (exists v,
     fst (fst (Rigol.invoke
                 (Rigol.Acquire_waveform
                    (Py.PyInt 1) (Py.PyStr "NORM") (Py.PyInt 1200))
                 Scripted.scope
                 (Scripted.start
                    [Scripted.Gives ""; Scripted.Gives ""; Scripted.Gives "";
                     Scripted.Gives ""; Scripted.Gives "0.1,0.2"])))
     = inr v)
  /\ exists l,
       calls (snd (Rigol.invoke
                 (Rigol.Acquire_waveform
                    (Py.PyInt 1) (Py.PyStr "NORM") (Py.PyInt 1200))
                 Scripted.scope
                 (Scripted.start
                    [Scripted.Gives ""; Scripted.Gives ""; Scripted.Gives "";
                     Scripted.Gives ""; Scripted.Gives "0.1,0.2"])))
       = l /\ writes l = 5%nat /\ reads l = 1%nat.
Proof.
  split.
  - eexists. vm_compute. reflexivity.
  - pose proof (proj1 (@method_exchanges Scripted.lib)
                  (Rigol.Acquire_waveform
                     (Py.PyInt 1) (Py.PyStr "NORM") (Py.PyInt 1200))
                  tt 1%nat
                  (Scripted.start
                     [Scripted.Gives ""; Scripted.Gives ""; Scripted.Gives "";
                      Scripted.Gives ""; Scripted.Gives "0.1,0.2"])) as H.
    destruct (Rigol.invoke _ _ _) as [[res o'] w'] eqn:E in H.
    destruct H as [l [Hl [_ [_ Hok]]]].
    vm_compute in E. inversion E; subst; clear E.
    destruct Hok as [Hw Hr]; [eexists; reflexivity|].
    exists l. simpl in Hl. subst l. split; [vm_compute; reflexivity|].
    split; assumption.
Defined.

(** C2: for every channel [c], scale [s] and coupling [m], when the
    fields have a text and the transport accepts the writes,
    [configure_channel(c, s, m)] returns having written, after the
    display command, [:CHANnel{c}:SCALe {s}] and then
    [:CHANnel{c}:COUPling {m}], and a run that returns has made exactly
    these calls; for the arguments [1], [0.5] and ["DC"] the two texts
    are [:CHANnel1:SCALe 0.5] and [:CHANnel1:COUPling DC]. *)
Theorem configure_channel_emits `{V : Visa.Lib} (c s m : Py.pyval) r h w :
  (forall d',
     Py.fits c = true -> Py.fits s = true -> Py.fits m = true ->
     accepted h
       [":CHANnel" ++ Py.format c ++ ":DISPlay ON";
        ":CHANnel" ++ Py.format c ++ ":SCALe " ++ Py.format s;
        ":CHANnel" ++ Py.format c ++ ":COUPling " ++ Py.format m]
       (device w) = Some d' ->
     Rigol.configure_channel c s m (Rigol.instance r h) w
     = (inr tt, Rigol.instance r h,
        {| device := d';
           calls := calls w ++
             [sent h (":CHANnel" ++ Py.format c ++ ":DISPlay ON");
              sent h (":CHANnel" ++ Py.format c ++ ":SCALe " ++ Py.format s);
              sent h (":CHANnel" ++ Py.format c ++ ":COUPling "
                        ++ Py.format m)];
           stdout := stdout w |}))
  /\ (forall u o' w',
        Rigol.configure_channel c s m (Rigol.instance r h) w
        = (inr u, o', w') ->
        calls w' = (calls w ++
          [sent h (":CHANnel" ++ Py.format c ++ ":DISPlay ON");
           sent h (":CHANnel" ++ Py.format c ++ ":SCALe " ++ Py.format s);
           sent h (":CHANnel" ++ Py.format c ++ ":COUPling "
                     ++ Py.format m)])%list)
  /\ ":CHANnel" ++ Py.format (Py.PyInt 1) ++ ":SCALe "
       ++ Py.format (Py.PyFloat Py.half) = ":CHANnel1:SCALe 0.5"
  /\ ":CHANnel" ++ Py.format (Py.PyInt 1) ++ ":COUPling "
       ++ Py.format (Py.PyStr "DC") = ":CHANnel1:COUPling DC".
Proof.
  split; [|split].
  - destruct w as [d l out]. intros d' Hc Hs Hm H. expose.
    rewrite Hc, Hs, Hm. expose. accept H. tidy. reflexivity.
  - intros u o' w'. apply configure_channel_ok.
  - split; vm_compute; reflexivity.
Qed.

Lemma configure_channel_emits_witness :
  Py.fits (Py.PyInt 1) = true /\ Py.fits (Py.PyFloat Py.half) = true
  /\ Py.fits (Py.PyStr "DC") = true
  /\ accepted (V := Scripted.lib) 1%nat
    [":CHANnel1:DISPlay ON"; ":CHANnel1:SCALe 0.5"; ":CHANnel1:COUPling DC"]
    (Scripted.remaining []) = Some (Scripted.remaining [])
  /\ Rigol.configure_channel
       (Py.PyInt 1) (Py.PyFloat Py.half) (Py.PyStr "DC")
       Scripted.scope (Scripted.start [])
     = (inr tt, Scripted.scope,
        {| device := Scripted.remaining [];
           calls := [Scripted.wrote ":CHANnel1:DISPlay ON";
                     Scripted.wrote ":CHANnel1:SCALe 0.5";
                     Scripted.wrote ":CHANnel1:COUPling DC"];
           stdout := "" |}).
Proof.
  repeat (split; [vm_compute; reflexivity|]).
  pose proof (proj1 (@configure_channel_emits Scripted.lib
                       (Py.PyInt 1) (Py.PyFloat Py.half) (Py.PyStr "DC")
                       tt 1%nat (Scripted.start []))
                (Scripted.remaining []) eq_refl eq_refl eq_refl eq_refl)
    as H.
  unfold Scripted.scope. rewrite H. vm_compute. reflexivity.
Defined.

(** C3: the command texts named by the specification are the ones the
    driver sends: a construction that succeeds has queried [*IDN?]; a
    [configure_channel] that returns has written [:CHANnel{n}:SCALe {v}];
    a [setup_trigger] that returns has written
    [:TRIG:EDGE:SOURce CHAN{n}]; an [acquire_waveform] that returns has
    queried [:WAV:DATA?]. *)
Theorem scpi_strings `{V : Visa.Lib} :
  (forall ip w o w',
     Rigol.new ip w = (inr o, w') ->
     exists l h s,
       calls w' = (calls w ++ l)%list /\ In (Query h "*IDN?", Replied s) l)
  /\ (forall n v k r h w u o' w',
        Rigol.configure_channel n v k (Rigol.instance r h) w
        = (inr u, o', w') ->
        exists l,
          calls w' = (calls w ++ l)%list
          /\ In (sent h (":CHANnel" ++ Py.format n ++ ":SCALe "
                           ++ Py.format v)) l)
  /\ (forall n lev k r h w u o' w',
        Rigol.setup_trigger n lev k (Rigol.instance r h) w
        = (inr u, o', w') ->
        exists l,
          calls w' = (calls w ++ l)%list
          /\ In (sent h (":TRIG:EDGE:SOURce CHAN" ++ Py.format n)) l)
  /\ (forall c k p r h w v o' w',
        Rigol.acquire_waveform c k p (Rigol.instance r h) w
        = (inr v, o', w') ->
        exists l,
          calls w' = (calls w ++ l)%list
          /\ In (Query h ":WAV:DATA?", Replied v) l).
Proof.
  repeat split.
  - intros ip w o w' H.
    destruct (new_ok _ _ _ _ H) as [r [h [s [_ [Hc _]]]]].
    eexists _, h, s. split; [exact Hc|]. cbn [In]. tauto.
  - intros n v k r h w u o' w' H.
    eexists. split; [exact (configure_channel_ok _ _ _ _ _ _ _ _ _ H)|].
    cbn [In]. tauto.
  - intros n lev k r h w u o' w' H.
    eexists. split; [exact (setup_trigger_ok _ _ _ _ _ _ _ _ _ H)|].
    cbn [In]. tauto.
  - intros c k p r h w v o' w' H.
    eexists. split; [exact (acquire_waveform_ok _ _ _ _ _ _ _ _ _ H)|].
    cbn [In]. tauto.
Qed.

Lemma scpi_strings_witness :
  exists o' w',
    Rigol.setup_trigger (Py.PyInt 2) (Py.PyFloat Py.half) (Py.PyStr "AUTO")
      Scripted.scope (Scripted.start []) = (inr tt, o', w')
    /\ exists l,
         calls w' = l
         /\ In (Scripted.wrote ":TRIG:EDGE:SOURce CHAN2") l.
Proof.
  eexists _, _. split; [vm_compute; reflexivity|].
  destruct (proj1 (proj2 (proj2 (@scpi_strings Scripted.lib)))
              (Py.PyInt 2) (Py.PyFloat Py.half) (Py.PyStr "AUTO")
              tt 1%nat (Scripted.start []) tt _ _ eq_refl) as [l [Hl Hin]].
  exists l. split; [exact Hl|exact Hin].
Defined.

(** C7: when the fields have a text and the transport accepts the
    writes and answers the query,
    [acquire_waveform(channel, mode, points)] writes
    [:WAV:SOUR CHAN{channel}], [:WAV:MODE {mode}], [:WAV:POIN {points}]
    and [:WAV:FORM ASC] (whatever the arguments), in this order, then
    makes the one query [:WAV:DATA?] and returns its reply; a run that
    returns has made exactly these five calls. *)
Theorem acquire_waveform_sequence `{V : Visa.Lib}
    (channel mode points : Py.pyval) r h w :
  (forall d4 d5 v,
     Py.fits channel = true -> Py.fits mode = true ->
     Py.fits points = true ->
     accepted h
       [":WAV:SOUR CHAN" ++ Py.format channel;
        ":WAV:MODE " ++ Py.format mode;
        ":WAV:POIN " ++ Py.format points;
        ":WAV:FORM ASC"] (device w) = Some d4 ->
     Visa.query h ":WAV:DATA?" d4 = (inr v, d5) ->
     Rigol.acquire_waveform channel mode points (Rigol.instance r h) w
     = (inr v, Rigol.instance r h,
        {| device := d5;
           calls := calls w ++
             [sent h (":WAV:SOUR CHAN" ++ Py.format channel);
              sent h (":WAV:MODE " ++ Py.format mode);
              sent h (":WAV:POIN " ++ Py.format points);
              sent h ":WAV:FORM ASC";
              (Query h ":WAV:DATA?", Replied v)];
           stdout := stdout w |}))
  /\ (forall v o' w',
        Rigol.acquire_waveform channel mode points (Rigol.instance r h) w
        = (inr v, o', w') ->
        calls w' = (calls w ++
          [sent h (":WAV:SOUR CHAN" ++ Py.format channel);
           sent h (":WAV:MODE " ++ Py.format mode);
           sent h (":WAV:POIN " ++ Py.format points);
           sent h ":WAV:FORM ASC";
           (Query h ":WAV:DATA?", Replied v)])%list).
Proof.
  split.
  - destruct w as [d l out]. intros d4 d5 v Hc Hm Hp H Hq. expose.
    rewrite Hc, Hm, Hp. expose. accept H.
    rewrite Hq. expose. tidy. reflexivity.
  - intros v o' w'. apply acquire_waveform_ok.
Qed.

Lemma acquire_waveform_sequence_witness :
  Py.fits (Py.PyInt 1) = true /\ Py.fits (Py.PyStr "NORM") = true
  /\ Py.fits (Py.PyInt 1200) = true
  /\ accepted (V := Scripted.lib) 1%nat
    [":WAV:SOUR CHAN1"; ":WAV:MODE NORM"; ":WAV:POIN 1200"; ":WAV:FORM ASC"]
    (Scripted.remaining
       [Scripted.Gives ""; Scripted.Gives ""; Scripted.Gives "";
        Scripted.Gives ""; Scripted.Gives "0.1,0.2"])
  = Some (Scripted.remaining [Scripted.Gives "0.1,0.2"])
  /\ Visa.query (Lib := Scripted.lib) 1%nat ":WAV:DATA?"
       (Scripted.remaining [Scripted.Gives "0.1,0.2"])
     = (inr "0.1,0.2", Scripted.remaining [])
  /\ Rigol.acquire_waveform (Py.PyInt 1) (Py.PyStr "NORM") (Py.PyInt 1200)
       Scripted.scope
       (Scripted.start
          [Scripted.Gives ""; Scripted.Gives ""; Scripted.Gives "";
           Scripted.Gives ""; Scripted.Gives "0.1,0.2"])
     = (inr "0.1,0.2", Scripted.scope,
        {| device := Scripted.remaining [];
           calls := [Scripted.wrote ":WAV:SOUR CHAN1";
                     Scripted.wrote ":WAV:MODE NORM";
                     Scripted.wrote ":WAV:POIN 1200";
                     Scripted.wrote ":WAV:FORM ASC";
                     Scripted.asked ":WAV:DATA?" "0.1,0.2"];
           stdout := "" |}).
Proof.
  repeat (split; [vm_compute; reflexivity|]).
  pose proof (proj1 (@acquire_waveform_sequence Scripted.lib
                       (Py.PyInt 1) (Py.PyStr "NORM") (Py.PyInt 1200)
                       tt 1%nat
                       (Scripted.start
                          [Scripted.Gives ""; Scripted.Gives "";
                           Scripted.Gives ""; Scripted.Gives "";
                           Scripted.Gives "0.1,0.2"]))
                (Scripted.remaining [Scripted.Gives "0.1,0.2"])
                (Scripted.remaining []) "0.1,0.2"
                eq_refl eq_refl eq_refl eq_refl eq_refl) as H.
  unfold Scripted.scope. rewrite H. vm_compute. reflexivity.
Defined.


(** An integer depth of 4301 digits: [set_memory_depth] raises the
    [ValueError] of the digit limit and makes no call. *)
Example depth_beyond_digit_limit :
  Rigol.invoke (Rigol.Set_memory_depth (Py.PyInt (10 ^ 4300)))
    Scripted.scope (Scripted.start [])
  = (inl (ValueError Py.digit_limit), Scripted.scope, Scripted.start []).
Proof. vm_compute. reflexivity. Qed.




(** C6: [get_time_step] makes exactly one call, the query [:WAV:XINC?].
    It returns the reply read as a float, raises [ValueError] when the
    reply is not a float literal, and ends with the exception of the
    transport when the query raises. *)
Theorem get_time_step_spec `{V : Visa.Lib} r h w :
  let '(res, _, w') := Rigol.get_time_step (Rigol.instance r h) w in
  exists out,
    calls w' = (calls w ++ [(Query h ":WAV:XINC?", out)])%list
    /\ match out with
       | Replied s =>
           res = match Py.float s with
                 | Some x => inr x
                 | None => inl (ValueError s)
                 end
       | Raised x => res = inl (Transport x)
       | Returned => False
       end.
Proof.
  destruct w as [d l out]. run_all;
    (eexists; split; [reflexivity|]); cbv beta iota;
    try reflexivity;
    match goal with E : Py.float _ = _ |- _ => rewrite E end; reflexivity.
Qed.

(** C5: a construction that succeeds has assigned the timeout (2000) and
    the two terminators (a newline each) exactly once, on the resource it
    opened; no method assigns them afterwards, and every method leaves
    the attributes [rm] and [osci] of the instance as they were. *)
Theorem settings_only_at_construction `{V : Visa.Lib} :
  (forall ip w o w',
     Rigol.new ip w = (inr o, w') ->
     exists r h l,
       o = Rigol.instance r h
       /\ calls w' = (calls w ++ l)%list
       /\ filter is_setting l =
            [(SetTimeout h 2000, Returned);
             (SetReadTermination h Py.newline, Returned);
             (SetWriteTermination h Py.newline, Returned)])
  /\ (forall (m : Rigol.method) r h w,
        let '(_, o', w') := Rigol.invoke m (Rigol.instance r h) w in
        o' = Rigol.instance r h
        /\ exists l,
             calls w' = (calls w ++ l)%list /\ filter is_setting l = []).
Proof.
  split.
  - intros ip w o w' H.
    destruct (new_ok _ _ _ _ H) as [r [h [s [Ho [Hc _]]]]].
    eexists r, h, _. split; [exact Ho|]. split; [exact Hc|]. reflexivity.
  - intros m r h [d l out].
    destruct m; run_all;
      (split; [reflexivity|]; eexists; split; [grown|reflexivity]).
Qed.

Lemma settings_only_at_construction_witness :
  exists o w',
    Rigol.new (Py.PyStr "192.168.1.20")
      (Scripted.start
         [Scripted.Gives ""; Scripted.Gives ""; Scripted.Gives "";
          Scripted.Gives ""; Scripted.Gives "";
          Scripted.Gives "RIGOL TECHNOLOGIES,DS1054Z"])
    = (inr o, w')
    /\ exists h,
         filter is_setting (calls w') =
           [(SetTimeout h 2000, Returned);
            (SetReadTermination h Py.newline, Returned);
            (SetWriteTermination h Py.newline, Returned)].
Proof.
  eexists _, _. split; [vm_compute; reflexivity|].
  destruct (proj1 (@settings_only_at_construction Scripted.lib)
              (Py.PyStr "192.168.1.20")
              (Scripted.start
                 [Scripted.Gives ""; Scripted.Gives ""; Scripted.Gives "";
                  Scripted.Gives ""; Scripted.Gives "";
                  Scripted.Gives "RIGOL TECHNOLOGIES,DS1054Z"])
              _ _ eq_refl) as [r [h [l [_ [Hl Hs]]]]].
  exists h. simpl in Hl. rewrite <- Hs, <- Hl. reflexivity.
Defined.

(** C8: besides creating the manager, opening the resource and making
    the three settings, a construction that succeeds has queried [*IDN?]
    and printed the reply, followed by a newline; once the settings are
    made the query is always issued, and when it raises the construction
    ends with that exception and prints nothing. *)
Theorem constructor_identifies `{V : Visa.Lib} (ip : Py.pyval) w :
  let '(res, w') := Rigol.new ip w in
  exists l,
    calls w' = (calls w ++ l)%list
    /\ (forall o, res = inr o ->
          exists r h s,
            o = Rigol.instance r h
            /\ l = [(ResourceManager "@py", Returned);
                    (OpenResource r ("TCPIP::" ++ Py.format ip ++ "::INSTR"),
                     Returned);
                    (SetTimeout h 2000, Returned);
                    (SetReadTermination h Py.newline, Returned);
                    (SetWriteTermination h Py.newline, Returned);
                    (Query h "*IDN?", Replied s)]
            /\ stdout w' = stdout w ++ s ++ Py.newline)
    /\ (forall h t, In (SetWriteTermination h t, Returned) l ->
          exists out, In (Query h "*IDN?", out) l)
    /\ (forall h x, In (Query h "*IDN?", Raised x) l ->
          res = inl (Transport x) /\ stdout w' = stdout w).
Proof.
  destruct w as [d l out].
  run_all; (eexists; split; [grown|]; split; [|split]);
    try (intros o Ho; discriminate Ho);
    try (intros h0 t0 Hin; members Hin; try discriminate Hin;
         inversion Hin; subst; eexists; cbn [In]; tauto);
    try (intros h0 x0 Hin; members Hin; try discriminate Hin;
         inversion Hin; subst; split; reflexivity).
  intros o Ho. inversion Ho; subst. eexists _, _, _.
  repeat split; reflexivity.
Qed.

Lemma constructor_identifies_witness :
  exists o w',
    Rigol.new (Py.PyStr "192.168.1.20")
      (Scripted.start
         [Scripted.Gives ""; Scripted.Gives ""; Scripted.Gives "";
          Scripted.Gives ""; Scripted.Gives "";
          Scripted.Gives "RIGOL TECHNOLOGIES,DS1054Z"])
    = (inr o, w')
    /\ stdout w' = "RIGOL TECHNOLOGIES,DS1054Z" ++ Py.newline.
Proof.
  eexists _, _. split; [vm_compute; reflexivity|].
  pose proof (@constructor_identifies Scripted.lib
                (Py.PyStr "192.168.1.20")
                (Scripted.start
                   [Scripted.Gives ""; Scripted.Gives ""; Scripted.Gives "";
                    Scripted.Gives ""; Scripted.Gives "";
                    Scripted.Gives "RIGOL TECHNOLOGIES,DS1054Z"])) as H.
  destruct (Rigol.new _ _) as [res w'] eqn:E in H.
  destruct H as [l [Hl [Hok _]]].
  vm_compute in E. inversion E; subst; clear E.
  destruct (Hok _ eq_refl) as [r [h [s [_ [Hlist Hout]]]]].
  rewrite Hlist in Hl. cbn in Hl. inversion Hl; subst.
  rewrite Hout. reflexivity.
Defined.

(** C9: [get_trigger_status] returns the reply to [:TRIG:STAT?] without
    the white space at its two ends, and nothing else removed;
    [get_memory_depth] and [acquire_waveform] return the reply to their
    query as it is.  The two treatments differ on some replies. *)
Theorem reply_processing `{V : Visa.Lib} :
  (forall r h w,
     let '(res, _, w') := Rigol.get_trigger_status (Rigol.instance r h) w in
     exists out,
       calls w' = (calls w ++ [(Query h ":TRIG:STAT?", out)])%list
       /\ match out with
          | Replied s => res = inr (Py.strip s)
          | Raised x => res = inl (Transport x)
          | Returned => False
          end)
  /\ (forall s,
        Py.head_by Py.isspace (Py.strip s) = false
        /\ Py.last_by Py.isspace (Py.strip s) = false
        /\ exists a b,
             s = a ++ Py.strip s ++ b
             /\ Py.all_by Py.isspace a = true
             /\ Py.all_by Py.isspace b = true)
  /\ (forall r h w,
        let '(res, _, w') := Rigol.get_memory_depth (Rigol.instance r h) w in
        exists out,
          calls w' = (calls w ++ [(Query h ":ACQuire:MDEPth?", out)])%list
          /\ match out with
             | Replied s => res = inr s
             | Raised x => res = inl (Transport x)
             | Returned => False
             end)
  /\ (forall c k p r h w v o' w',
        Rigol.acquire_waveform c k p (Rigol.instance r h) w
        = (inr v, o', w') ->
        exists l0,
          calls w' =
            (calls w ++ l0 ++ [(Query h ":WAV:DATA?", Replied v)])%list)
  /\ (exists s, Py.strip s <> s).
Proof.
  split; [|split; [|split; [|split]]].
  - intros r h [d l out]. run_all;
      (eexists; split; [reflexivity|]); reflexivity.
  - intros s. apply PyFacts.strip_by_spec.
  - intros r h [d l out]. run_all;
      (eexists; split; [reflexivity|]); reflexivity.
  - intros c k p r h w v o' w' H.
    rewrite (acquire_waveform_ok _ _ _ _ _ _ _ _ _ H).
    eexists [_; _; _; _]. reflexivity.
  - exists " STOP". vm_compute. discriminate.
Qed.

Lemma reply_processing_witness :
  exists o' w',
    Rigol.acquire_waveform (Py.PyInt 2) (Py.PyStr "RAW") (Py.PyInt 600)
      Scripted.scope
      (Scripted.start
         [Scripted.Gives ""; Scripted.Gives ""; Scripted.Gives "";
          Scripted.Gives ""; Scripted.Gives " 1.0,2.0 "])
    = (inr " 1.0,2.0 ", o', w')
    /\ exists l0,
         calls w' = (l0 ++ [Scripted.asked ":WAV:DATA?" " 1.0,2.0 "])%list.
Proof.
  eexists _, _. split; [vm_compute; reflexivity|].
  destruct (proj1 (proj2 (proj2 (proj2 (@reply_processing Scripted.lib))))
              (Py.PyInt 2) (Py.PyStr "RAW") (Py.PyInt 600) tt 1%nat
              (Scripted.start
                 [Scripted.Gives ""; Scripted.Gives ""; Scripted.Gives "";
                  Scripted.Gives ""; Scripted.Gives " 1.0,2.0 "])
              " 1.0,2.0 " _ _ eq_refl) as [l0 Hl].
  exists l0. exact Hl.
Defined.

(** C10: [close] calls the transport's close on the instrument handle
    when the handle is true in a condition, and makes no call at all
    otherwise.  In both cases it makes no call on the resource manager,
    prints nothing and leaves the attributes of the instance unchanged. *)
Theorem close_spec `{V : Visa.Lib} r h w :
  let '(res, o', w') := Rigol.close (Rigol.instance r h) w in
  o' = Rigol.instance r h
  /\ stdout w' = stdout w
  /\ exists l,
       calls w' = (calls w ++ l)%list
       /\ filter on_manager l = []
       /\ if Visa.truth h (device w)
          then exists out,
                 l = [(Close h, out)]
                 /\ match out with
                    | Returned => res = inr tt
                    | Raised x => res = inl (Transport x)
                    | Replied _ => False
                    end
          else l = [] /\ res = inr tt /\ device w' = device w.
Proof.
  destruct w as [d l out]. expose.
  destruct (Visa.truth h d); expose; repeat next_call;
    (split; [reflexivity|]; split; [reflexivity|];
     eexists; split; [grown|]; split; [reflexivity|]);
    try (eexists; split; reflexivity);
    repeat split; reflexivity.
Qed.

(* ===================================================================== *)
(** * Further properties of the methods *)
(* ===================================================================== *)

(** X1: when the fields have a text and the transport accepts the
    writes, [setup_trigger(source, level, mode)] returns having written
    [:TRIG:EDGE:SOURce CHAN{source}],
    [:TRIG:EDGE:LEV {level}] and [:TRIG:SWE {mode}], in this order; a run
    that returns has made exactly these calls. *)
Theorem setup_trigger_sequence `{V : Visa.Lib} (source level mode : Py.pyval)
    r h w :
  (forall d',
     Py.fits source = true -> Py.fits level = true ->
     Py.fits mode = true ->
     accepted h
       [":TRIG:EDGE:SOURce CHAN" ++ Py.format source;
        ":TRIG:EDGE:LEV " ++ Py.format level;
        ":TRIG:SWE " ++ Py.format mode] (device w) = Some d' ->
     Rigol.setup_trigger source level mode (Rigol.instance r h) w
     = (inr tt, Rigol.instance r h,
        {| device := d';
           calls := calls w ++
             [sent h (":TRIG:EDGE:SOURce CHAN" ++ Py.format source);
              sent h (":TRIG:EDGE:LEV " ++ Py.format level);
              sent h (":TRIG:SWE " ++ Py.format mode)];
           stdout := stdout w |}))
  /\ (forall u o' w',
        Rigol.setup_trigger source level mode (Rigol.instance r h) w
        = (inr u, o', w') ->
        calls w' = (calls w ++
          [sent h (":TRIG:EDGE:SOURce CHAN" ++ Py.format source);
           sent h (":TRIG:EDGE:LEV " ++ Py.format level);
           sent h (":TRIG:SWE " ++ Py.format mode)])%list).
Proof.
  split.
  - destruct w as [d l out]. intros d' Hs Hl Hm H. expose.
    rewrite Hs, Hl, Hm. expose. accept H. tidy. reflexivity.
  - intros u o' w'. apply setup_trigger_ok.
Qed.

Lemma setup_trigger_sequence_witness :
  Py.fits (Py.PyInt 2) = true /\ Py.fits (Py.PyFloat Py.half) = true
  /\ Py.fits (Py.PyStr "AUTO") = true
  /\ accepted (V := Scripted.lib) 1%nat
    [":TRIG:EDGE:SOURce CHAN2"; ":TRIG:EDGE:LEV 0.5"; ":TRIG:SWE AUTO"]
    (Scripted.remaining []) = Some (Scripted.remaining [])
  /\ Rigol.setup_trigger
       (Py.PyInt 2) (Py.PyFloat Py.half) (Py.PyStr "AUTO")
       Scripted.scope (Scripted.start [])
     = (inr tt, Scripted.scope,
        {| device := Scripted.remaining [];
           calls := [Scripted.wrote ":TRIG:EDGE:SOURce CHAN2";
                     Scripted.wrote ":TRIG:EDGE:LEV 0.5";
                     Scripted.wrote ":TRIG:SWE AUTO"];
           stdout := "" |}).
Proof.
  repeat (split; [vm_compute; reflexivity|]).
  pose proof (proj1 (@setup_trigger_sequence Scripted.lib
                       (Py.PyInt 2) (Py.PyFloat Py.half) (Py.PyStr "AUTO")
                       tt 1%nat (Scripted.start []))
                (Scripted.remaining []) eq_refl eq_refl eq_refl eq_refl)
    as H.
  unfold Scripted.scope. rewrite H. vm_compute. reflexivity.
Defined.

(** X2: each of [set_memory_depth], [set_time_scale] and
    [set_time_offset] makes exactly one call in every run in which its
    argument has a text, the write of its command followed by that text;
    it returns [None] when the write returns and ends with the exception
    of the write otherwise.  When the argument is an integer beyond the
    digit limit it makes no call and raises [ValueError]. *)
Theorem setters_single_write `{V : Visa.Lib} (v : Py.pyval) r h w :
  (let '(res, _, w') := Rigol.set_memory_depth v (Rigol.instance r h) w in
   if Py.fits v then
     exists out,
       calls w' =
         (calls w
            ++ [(Write h (":ACQuire:MDEPth " ++ Py.format v), out)])%list
       /\ match out with
          | Returned => res = inr tt
          | Raised x => res = inl (Transport x)
          | Replied _ => False
          end
   else w' = w /\ res = inl (ValueError Py.digit_limit))
  /\ (let '(res, _, w') := Rigol.set_time_scale v (Rigol.instance r h) w in
      if Py.fits v then
        exists out,
          calls w' =
            (calls w
               ++ [(Write h (":TIMebase:MAIN:SCALe " ++ Py.format v),
                    out)])%list
          /\ match out with
             | Returned => res = inr tt
             | Raised x => res = inl (Transport x)
             | Replied _ => False
             end
      else w' = w /\ res = inl (ValueError Py.digit_limit))
  /\ (let '(res, _, w') := Rigol.set_time_offset v (Rigol.instance r h) w in
      if Py.fits v then
        exists out,
          calls w' =
            (calls w
               ++ [(Write h (":TIMebase:MAIN:OFFSet " ++ Py.format v),
                    out)])%list
          /\ match out with
             | Returned => res = inr tt
             | Raised x => res = inl (Transport x)
             | Replied _ => False
             end
      else w' = w /\ res = inl (ValueError Py.digit_limit)).
Proof.
  destruct w as [d l out].
  split; [|split]; run_all;
    first [split; reflexivity | eexists; split; reflexivity].
Qed.

(** One leaf of a run: the calls made are the first [n] commands. *)
Ltac first_commands n :=
  eexists; exists n; split; [grown|]; split; [reflexivity|];
  intros v Hv; try discriminate Hv;
  first [left; reflexivity | right; split; reflexivity].

(** X3: in every run of every method the calls are made in the order of
    [Rigol.commands], none skipped and none added: the calls of a run
    are the first [n] commands for some [n], and all of them when the
    method returns ([close] on a handle that is false makes none). *)
Theorem calls_follow_commands `{V : Visa.Lib} (m : Rigol.method) r h w :
  let '(res, _, w') := Rigol.invoke m (Rigol.instance r h) w in
  exists l n,
    calls w' = (calls w ++ l)%list
    /\ map fst l = firstn n (Rigol.commands m h)
    /\ (forall v, res = inr v ->
          map fst l = Rigol.commands m h \/ (m = Rigol.Close /\ l = [])).
Proof.
  destruct w as [d l out].
  destruct m; run_all;
    first [ solve [first_commands 0%nat] | solve [first_commands 1%nat]
          | solve [first_commands 2%nat] | solve [first_commands 3%nat]
          | solve [first_commands 4%nat] | solve [first_commands 5%nat] ].
Qed.

Lemma calls_follow_commands_witness :
  exists v l,
    fst (fst (Rigol.invoke Rigol.Get_memory_depth Scripted.scope
                (Scripted.start [Scripted.Gives "12000"]))) = inr v
    /\ calls (snd (Rigol.invoke Rigol.Get_memory_depth Scripted.scope
                     (Scripted.start [Scripted.Gives "12000"]))) = l
    /\ map fst l = [@Query Scripted.lib 1%nat ":ACQuire:MDEPth?"].
Proof.
  pose proof (@calls_follow_commands Scripted.lib Rigol.Get_memory_depth
                tt 1%nat (Scripted.start [Scripted.Gives "12000"])) as H.
  destruct (Rigol.invoke _ _ _) as [[res o'] w'] eqn:E in H.
  destruct H as [l [n [Hl [_ Hall]]]].
  vm_compute in E. inversion E; subst; clear E.
  destruct (Hall _ eq_refl) as [Hc|[Hm _]]; [|discriminate Hm].
  eexists _, l. split; [vm_compute; reflexivity|].
  split; [simpl in Hl; rewrite <- Hl; vm_compute; reflexivity|exact Hc].
Defined.

(** X4: no method prints, and every call of every method is made on the
    instance's own instrument handle, never on the resource manager or
    on another resource; only [close] ever closes the handle. *)
Theorem methods_stay_on_handle `{V : Visa.Lib} (m : Rigol.method) r h w :
  let '(_, _, w') := Rigol.invoke m (Rigol.instance r h) w in
  stdout w' = stdout w
  /\ exists l,
       calls w' = (calls w ++ l)%list
       /\ Forall (fun e => addressed (fst e) = Some h) l
       /\ (filter is_close l = [] \/ m = Rigol.Close).
Proof.
  destruct w as [d l out].
  destruct m; run_all;
    (split; [reflexivity|]; eexists; split; [grown|]; split;
     [repeat constructor | first [left; reflexivity | right; reflexivity]]).
Qed.

(** X5: the constructor never closes what it has opened: in no run does
    it call close, so a construction that fails after the resource was
    opened (a setting or the identification query raises) leaves the
    resource open; and a construction that fails prints nothing. *)
Theorem constructor_never_closes `{V : Visa.Lib} (ip : Py.pyval) w :
  let '(res, w') := Rigol.new ip w in
  exists l,
    calls w' = (calls w ++ l)%list
    /\ filter is_close l = []
    /\ (forall e, res = inl e -> stdout w' = stdout w).
Proof.
  destruct w as [d l out].
  run_all; (eexists; split; [grown|]; split; [reflexivity|]);
    intros e He; try discriminate He; reflexivity.
Qed.

Lemma constructor_never_closes_witness :
  exists e l,
    fst (Rigol.new (Py.PyStr "192.168.1.20")
           (Scripted.start
              [Scripted.Gives ""; Scripted.Gives ""; Scripted.Gives "";
               Scripted.Gives ""; Scripted.Gives "";
               Scripted.Fails Scripted.VI_ERROR_TMO])) = inl e
    /\ calls (snd (Rigol.new (Py.PyStr "192.168.1.20")
                     (Scripted.start
                        [Scripted.Gives ""; Scripted.Gives "";
                         Scripted.Gives ""; Scripted.Gives "";
                         Scripted.Gives "";
                         Scripted.Fails Scripted.VI_ERROR_TMO]))) = l
    /\ In (@OpenResource Scripted.lib tt "TCPIP::192.168.1.20::INSTR",
           @Returned Scripted.lib) l
    /\ filter is_close l = []
    /\ stdout (snd (Rigol.new (Py.PyStr "192.168.1.20")
                      (Scripted.start
                         [Scripted.Gives ""; Scripted.Gives "";
                          Scripted.Gives ""; Scripted.Gives "";
                          Scripted.Gives "";
                          Scripted.Fails Scripted.VI_ERROR_TMO]))) = "".
Proof.
  pose proof (@constructor_never_closes Scripted.lib
                (Py.PyStr "192.168.1.20")
                (Scripted.start
                   [Scripted.Gives ""; Scripted.Gives ""; Scripted.Gives "";
                    Scripted.Gives ""; Scripted.Gives "";
                    Scripted.Fails Scripted.VI_ERROR_TMO])) as H.
  destruct (Rigol.new _ _) as [res w'] eqn:E in H.
  destruct H as [l [Hl [Hc Hout]]].
  vm_compute in E. inversion E; subst; clear E.
  eexists _, l. split; [vm_compute; reflexivity|].
  simpl in Hl. split; [rewrite <- Hl; vm_compute; reflexivity|].
  split; [rewrite <- Hl; vm_compute; tauto|].
  split; [exact Hc|]. pose proof (Hout _ eq_refl) as Ho.
  vm_compute in Ho |- *. exact Ho.
Defined.

(** X6: when the query [:TRIG:STAT?] is answered, [get_trigger_status]
    returns the reply stripped: the reply itself when it has no white
    space at either end, the empty string when it is empty or blank, and
    in every case a text that stripping again leaves unchanged. *)
Theorem trigger_status_edges `{V : Visa.Lib} r h w s d' :
  Visa.query h ":TRIG:STAT?" (device w) = (inr s, d') ->
  Rigol.get_trigger_status (Rigol.instance r h) w
  = (inr (Py.strip s), Rigol.instance r h,
     {| device := d';
        calls := calls w ++ [(Query h ":TRIG:STAT?", Replied s)];
        stdout := stdout w |})
  /\ (Py.head_by Py.isspace s = false -> Py.last_by Py.isspace s = false ->
      Py.strip s = s)
  /\ (Py.all_by Py.isspace s = true -> Py.strip s = "")
  /\ Py.strip (Py.strip s) = Py.strip s.
Proof.
  intros Hq. split; [|split; [|split]].
  - destruct w as [d l out]. expose. rewrite Hq. reflexivity.
  - apply PyFacts.strip_by_clean.
  - apply PyFacts.strip_by_blank.
  - apply PyFacts.strip_by_idem.
Qed.

Lemma trigger_status_edges_witness :
  Visa.query (Lib := Scripted.lib) 1%nat ":TRIG:STAT?"
    (Scripted.remaining [Scripted.Gives "STOP"])
  = (inr "STOP", Scripted.remaining [])
  /\ Py.head_by Py.isspace "STOP" = false
  /\ Py.last_by Py.isspace "STOP" = false
  /\ Rigol.get_trigger_status Scripted.scope
       (Scripted.start [Scripted.Gives "STOP"])
     = (inr "STOP", Scripted.scope,
        {| device := Scripted.remaining [];
           calls := [Scripted.asked ":TRIG:STAT?" "STOP"];
           stdout := "" |}).
Proof.
  split; [vm_compute; reflexivity|]. split; [vm_compute; reflexivity|].
  split; [vm_compute; reflexivity|].
  destruct (@trigger_status_edges Scripted.lib tt 1%nat
              (Scripted.start [Scripted.Gives "STOP"]) "STOP"
              (Scripted.remaining []) eq_refl) as [Hrun [Hclean _]].
  unfold Scripted.scope. rewrite Hrun.
  rewrite (Hclean eq_refl eq_refl). reflexivity.
Defined.

(** X7: white space around the reply to [:WAV:XINC?] (spaces, tabs, line
    ends) does not change what [get_time_step] returns: it is the float
    read from the reply without it.  When that is not a float literal
    the [ValueError] carries the whole reply. *)
Theorem time_step_ignores_padding `{V : Visa.Lib} r h w a s b d' :
  Visa.query h ":WAV:XINC?" (device w) = (inr (a ++ s ++ b), d') ->
  Py.all_by Py.float_space a = true ->
  Py.all_by Py.float_space b = true ->
  Rigol.get_time_step (Rigol.instance r h) w
  = (match Py.float s with
     | Some x => inr x
     | None => inl (ValueError (a ++ s ++ b))
     end,
     Rigol.instance r h,
     {| device := d';
        calls := calls w ++ [(Query h ":WAV:XINC?", Replied (a ++ s ++ b))];
        stdout := stdout w |}).
Proof.
  intros Hq Ha Hb. destruct w as [d l out]. expose. rewrite Hq. expose.
  rewrite (PyFacts.float_padding _ _ _ Ha Hb).
  destruct (Py.float s); reflexivity.
Qed.

Lemma time_step_ignores_padding_witness :
  Visa.query (Lib := Scripted.lib) 1%nat ":WAV:XINC?"
    (Scripted.remaining
       [Scripted.Gives (" " ++ "1.000000e-06" ++ String "013" EmptyString)])
  = (inr (" " ++ "1.000000e-06" ++ String "013" EmptyString),
     Scripted.remaining [])
  /\ Py.all_by Py.float_space " " = true
  /\ Py.all_by Py.float_space (String "013" EmptyString) = true
  /\ fst (fst (Rigol.get_time_step Scripted.scope
                 (Scripted.start
                    [Scripted.Gives
                       (" " ++ "1.000000e-06"
                          ++ String "013" EmptyString)])))
     = inr (S754_finite false 4722366482869645 (-72)).
Proof.
  split; [vm_compute; reflexivity|]. split; [vm_compute; reflexivity|].
  split; [vm_compute; reflexivity|].
  unfold Scripted.scope.
  rewrite (@time_step_ignores_padding Scripted.lib tt 1%nat
             (Scripted.start
                [Scripted.Gives
                   (" " ++ "1.000000e-06" ++ String "013" EmptyString)])
             " " "1.000000e-06" (String "013" EmptyString)
             (Scripted.remaining []) eq_refl eq_refl eq_refl).
  vm_compute. reflexivity.
Defined.

(** X8: when the reply to [:WAV:XINC?] is empty or made of white space
    only (any characters of [str.isspace], the separators U+001C to
    U+001F included), [get_time_step] raises [ValueError]; it does not
    return zero or any other default. *)
Theorem time_step_blank_reply `{V : Visa.Lib} r h w s d' :
  Visa.query h ":WAV:XINC?" (device w) = (inr s, d') ->
  Py.all_by Py.isspace s = true ->
  Rigol.get_time_step (Rigol.instance r h) w
  = (inl (ValueError s), Rigol.instance r h,
     {| device := d';
        calls := calls w ++ [(Query h ":WAV:XINC?", Replied s)];
        stdout := stdout w |}).
Proof.
  intros Hq Hs. destruct w as [d l out]. expose. rewrite Hq. expose.
  rewrite (PyFacts.float_blank _ Hs). reflexivity.
Qed.

Lemma time_step_blank_reply_witness :
  Visa.query (Lib := Scripted.lib) 1%nat ":WAV:XINC?"
    (Scripted.remaining [Scripted.Gives (String " " (String "028" " "))])
  = (inr (String " " (String "028" " ")), Scripted.remaining [])
  /\ Py.all_by Py.isspace (String " " (String "028" " ")) = true
  /\ fst (fst (Rigol.get_time_step Scripted.scope
                 (Scripted.start
                    [Scripted.Gives (String " " (String "028" " "))])))
     = inl (@ValueError Scripted.lib (String " " (String "028" " "))).
Proof.
  split; [vm_compute; reflexivity|]. split; [vm_compute; reflexivity|].
  unfold Scripted.scope.
  rewrite (@time_step_blank_reply Scripted.lib tt 1%nat
             (Scripted.start
                [Scripted.Gives (String " " (String "028" " "))])
             (String " " (String "028" " "))
             (Scripted.remaining []) eq_refl eq_refl).
  reflexivity.
Defined.

(** X9: the command of [set_memory_depth] tells integer depths apart:
    two different integers within the digit limit are never sent as the
    same text. *)
Theorem memory_depth_text_distinct `{V : Visa.Lib} (a b : Z) r h w :
  a <> b ->
  Py.fits (Py.PyInt a) = true -> Py.fits (Py.PyInt b) = true ->
  map fst (calls (snd (Rigol.set_memory_depth (Py.PyInt a)
                         (Rigol.instance r h) w)))
  <> map fst (calls (snd (Rigol.set_memory_depth (Py.PyInt b)
                            (Rigol.instance r h) w))).
Proof.
  intros Hab Ha Hb Heq. apply Hab. destruct w as [d l out]. revert Heq.
  expose. rewrite Ha, Hb.
  run_all; cbn [fst snd calls Py.format]; rewrite !map_app;
    intros Heq; apply app_inv_head in Heq; cbn [map fst] in Heq;
    injection Heq as Heq; exact (PyFacts.str_int_inj _ _ Heq).
Qed.

Lemma memory_depth_text_distinct_witness :
  12000 <> 24000
  /\ Py.fits (Py.PyInt 12000) = true /\ Py.fits (Py.PyInt 24000) = true
  /\ map fst (calls (snd (Rigol.set_memory_depth (Py.PyInt 12000)
                            Scripted.scope (Scripted.start []))))
     <> map fst (calls (snd (Rigol.set_memory_depth (Py.PyInt 24000)
                               Scripted.scope (Scripted.start [])))).
Proof.
  split; [discriminate|]. repeat (split; [vm_compute; reflexivity|]).
  apply (@memory_depth_text_distinct Scripted.lib 12000 24000 tt 1%nat
           (Scripted.start [])); [discriminate| |]; vm_compute; reflexivity.
Defined.

(** X10: the driver does not remember that it was closed: after a
    [close] that succeeded the instance still holds the handle, and a
    following [set_time_scale] (of a scale that has a text) sends its
    command to the transport on the closed handle instead of failing in
    the driver. *)
Theorem use_after_close `{V : Visa.Lib} (t : Py.pyval) r h w d1 :
  Py.fits t = true ->
  Visa.truth h (device w) = true ->
  Visa.close h (device w) = (inr tt, d1) ->
  let '(_, o', w') :=
    bind Rigol.close (fun _ => Rigol.set_time_scale t)
      (Rigol.instance r h) w in
  o' = Rigol.instance r h
  /\ exists out,
       calls w' =
         (calls w ++
            [(Close h, Returned);
             (Write h (":TIMebase:MAIN:SCALe " ++ Py.format t), out)])%list.
Proof.
  intros Hf Ht Hc. destruct w as [d l out]. expose.
  cbn [device] in Ht, Hc. rewrite Ht. expose. rewrite Hc. expose.
  rewrite Hf. expose.
  repeat next_call; (split; [reflexivity|]; eexists; tidy; reflexivity).
Qed.

Lemma use_after_close_witness :
  Py.fits (Py.PyFloat Py.half) = true
  /\ Visa.truth (Lib := Scripted.lib) 1%nat (Scripted.remaining []) = true
  /\ Visa.close (Lib := Scripted.lib) 1%nat (Scripted.remaining [])
     = (inr tt, Scripted.remaining [])
  /\ calls (snd (bind Rigol.close
                   (fun _ => Rigol.set_time_scale (Py.PyFloat Py.half))
                   Scripted.scope (Scripted.start [])))
     = [(@Close Scripted.lib 1%nat, @Returned Scripted.lib);
        Scripted.wrote ":TIMebase:MAIN:SCALe 0.5"].
Proof.
  split; [reflexivity|]. split; [reflexivity|]. split; [reflexivity|].
  pose proof (@use_after_close Scripted.lib (Py.PyFloat Py.half) tt 1%nat
                (Scripted.start []) (Scripted.remaining [])
                eq_refl eq_refl eq_refl) as H.
  unfold Scripted.scope.
  destruct (bind _ _ _ _) as [[res o'] w'] eqn:E in H |- *.
  destruct H as [_ [out0 Hl]].
  vm_compute in E. inversion E; subst; clear E.
  vm_compute. reflexivity.
Defined.

(** X11: an instance returned by the constructor has both attributes
    assigned: whatever happens later to the transport, no method raises
    [AttributeError] on it, and no method changes its attributes. *)
Theorem constructed_instance_is_usable `{V : Visa.Lib}
    (ip : Py.pyval) w o w1 (m : Rigol.method) w2 :
  Rigol.new ip w = (inr o, w1) ->
  let '(res, o', _) := Rigol.invoke m o w2 in
  o' = o /\ forall a, res <> inl (AttributeError a).
Proof.
  intros H. destruct (new_ok _ _ _ _ H) as [r [h [s [-> _]]]].
  destruct w2 as [d l out].
  destruct m; run_all; (split; [reflexivity|]; intros a Ha; discriminate Ha).
Qed.

Lemma constructed_instance_is_usable_witness :
  exists o w1,
    Rigol.new (Py.PyStr "192.168.1.20")
      (Scripted.start
         [Scripted.Gives ""; Scripted.Gives ""; Scripted.Gives "";
          Scripted.Gives ""; Scripted.Gives "";
          Scripted.Gives "RIGOL TECHNOLOGIES,DS1054Z"])
    = (inr o, w1)
    /\ forall a,
         fst (fst (Rigol.invoke Rigol.Get_trigger_status o
                     (Scripted.start [Scripted.Fails Scripted.VI_ERROR_TMO])))
         <> inl (AttributeError a).
Proof.
  eexists _, _. split; [vm_compute; reflexivity|].
  pose proof (@constructed_instance_is_usable Scripted.lib
                (Py.PyStr "192.168.1.20")
                (Scripted.start
                   [Scripted.Gives ""; Scripted.Gives ""; Scripted.Gives "";
                    Scripted.Gives ""; Scripted.Gives "";
                    Scripted.Gives "RIGOL TECHNOLOGIES,DS1054Z"])
                _ _ Rigol.Get_trigger_status
                (Scripted.start [Scripted.Fails Scripted.VI_ERROR_TMO])
                eq_refl) as H.
  destruct (Rigol.invoke _ _ _) as [[res o'] w'] in H |- *.
  exact (proj2 H).
Defined.
